(** * moveit_benchmarks: run_benchmark.cpp

    A shallow embedding of [BenchmarkService::collectMetrics] and
    [BenchmarkService::computeBenchmark] and the properties of the
    benchmark report that follow from them.

    The collaborators of the service (planners, planning scene, clock, file
    system, libm and the stream formatters) are interfaces here, as they are
    in the C++ code; the bookkeeping of the service itself is executable. *)

From Stdlib Require Import Floats ZArith Ascii OrderedTypeEx.
From stdpp Require Import gmap strings list fin_maps pretty sorting.


(** ** Arithmetic on [double]

    The operations [collectMetrics] applies to values of type [double].
    [d_of_size] is the cast [(double)p.size()], [d_acos] is libm's [acos],
    [d_lexical_cast] is [boost::lexical_cast<std::string>(double)] and
    [d_ostream] is [std::ostream << double]. *)
Class DoubleOps (D : Type) := {
  d_zero : D;
  d_one : D;
  d_two : D;
  d_pi : D;
  d_add : D → D → D;
  d_sub : D → D → D;
  d_mul : D → D → D;
  d_div : D → D → D;
  d_opp : D → D;
  d_ltb : D → D → bool;
  d_leb : D → D → bool;
  d_acos : D → D;
  d_of_size : nat → D;
  d_lexical_cast : D → string;
  d_ostream : D → string
}.

Declare Scope double_scope.
Delimit Scope double_scope with dbl.
Infix "+" := d_add : double_scope.
Infix "-" := d_sub : double_scope.
Infix "*" := d_mul : double_scope.
Infix "/" := d_div : double_scope.
Infix "<?" := d_ltb : double_scope.
Infix "<=?" := d_leb : double_scope.

(** IEEE 754 binary64, the kernel's primitive floats.  libm and the two
    formatters stay parameters.  The cast goes through a 63-bit integer:
    it is the C++ cast for sizes below 2^63, which every vector has. *)
Definition ieee_double (acos : float → float) (lexical_cast ostream : float → string)
  : DoubleOps float :=
  {| d_zero := 0%float;
     d_one := 1%float;
     d_two := 2%float;
     d_pi := 0x1.921fb54442d18p+1%float;
     d_add := PrimFloat.add;
     d_sub := PrimFloat.sub;
     d_mul := PrimFloat.mul;
     d_div := PrimFloat.div;
     d_opp := PrimFloat.opp;
     d_ltb := PrimFloat.ltb;
     d_leb := PrimFloat.leb;
     d_acos := acos;
     d_of_size := λ n, PrimFloat.of_uint63 (Uint63.of_Z (Z.of_nat n));
     d_lexical_cast := lexical_cast;
     d_ostream := ostream |}.

(** ** ROS time

    [ros::Duration] and [ros::WallTime] with the operations the service
    uses. *)
Class RosTime (D : Type) := {
  Duration : Type;
  toSec : Duration → D;
  duration_lexical_cast : Duration → string;
  WallTime : Type;
  wall_elapsed : WallTime → WallTime → D;
  to_iso_extended_string : WallTime → string
}.

(** [boost::lexical_cast<std::string>(bool)]. *)
Definition bool_lexical_cast (b : bool) : string := if b then "1" else "0".

(** The suffixes of the five properties [collectMetrics] stores for a
    segment, after ["path_"] and the segment's description. *)
Definition segment_suffixes : list string :=
  ["_correct BOOLEAN"; "_length REAL"; "_clearance REAL"; "_smoothness REAL"; "_time REAL"].

(** The names of the five properties of a segment with description [d]. *)
Definition segment_keys (d : string) : list string :=
  (λ suffix, ("path_" +:+ d) +:+ suffix) <$> segment_suffixes.

(** ** The host name *)

(** [BUF_SIZE] of [getHostname]. *)
Definition BUF_SIZE : nat := 1024.

(** [std::string(buffer)]: the characters before the first NUL. *)
Fixpoint c_string (buffer : list Ascii.ascii) : string :=
  match buffer with
  | [] => ""
  | c :: buffer' => if bool_decide (c = Ascii.zero) then "" else String c (c_string buffer')
  end.

(** [getHostname]: [err] is what [gethostname] returned and [buffer] what
    it left in the [BUF_SIZE] characters it was given. *)
Definition getHostname (err : Z) (buffer : list Ascii.ascii) : string :=
  if bool_decide (err ≠ 0%Z) then ""
  else c_string (<[BUF_SIZE - 1 := Ascii.zero]> buffer).

Section Model.
Context {D : Type} {dops : DoubleOps D} {rt : RosTime D}.
Context {KinematicState RobotState RobotTrajectory : Type}.
Context {RequestBody SceneMsg World : Type}.

(** The planning scene, as far as [collectMetrics] and the report use it.
    [scene_convert] is [trajectory_processing::convertToKinematicStates]
    with the scene's current state and transforms. *)
Record PlanningScene := {
  scene_name : string;
  scene_convert : RobotState → RobotTrajectory → list KinematicState;
  scene_distance : KinematicState → KinematicState → D;
  scene_collision : KinematicState → bool;
  scene_distanceToCollision : KinematicState → D
}.

(** [moveit_msgs::MotionPlanDetailedResponse].  The message keeps three
    parallel vectors [trajectory], [description] and [processing_time];
    [collectMetrics] reads all three at the same index [j], for
    [j < trajectory.size()], so a segment carries its three entries. *)
Record Segment := {
  seg_trajectory : RobotTrajectory;
  seg_description : string;
  seg_processing_time : Duration
}.

Record MotionPlanDetailedResponse := {
  trajectory_start : RobotState;
  segments : list Segment
}.

Section Metrics.
Variable scene : PlanningScene.

Local Open Scope double_scope.

(** [for k = 1 .. p.size()-1: L += distance(p[k-1], p[k])], entered with
    [prev = p[k-1]] and the states from [p[k]] on. *)
Fixpoint length_loop (L : D) (prev : KinematicState) (rest : list KinematicState) : D :=
  match rest with
  | [] => L
  | s :: rest' => length_loop (L + scene_distance scene prev s) s rest'
  end.

Definition path_length (p : list KinematicState) : D :=
  match p with
  | [] => d_zero
  | s0 :: rest => length_loop d_zero s0 rest
  end.

(** The correctness and clearance loop over all of [p]: the pair is
    ([correct], [clearance]) before the final division. *)
Fixpoint clearance_loop (correct : bool) (clearance : D) (p : list KinematicState)
  : bool * D :=
  match p with
  | [] => (correct, clearance)
  | s :: p' =>
      let correct' := if scene_collision scene s then false else correct in
      let d := scene_distanceToCollision scene s in
      clearance_loop correct' (clearance + d) p'
  end.

(** [clearance /= (double)p.size()], whatever the size. *)
Definition path_correct (p : list KinematicState) : bool :=
  (clearance_loop true d_zero p).1.

Definition path_clearance (p : list KinematicState) : D :=
  (clearance_loop true d_zero p).2 / d_of_size (length p).

(** One turn of the smoothness loop at index [k]: [a] is carried over from
    the previous turn, [s2] is [p[k-2]], [s1] is [p[k-1]] and [s] is [p[k]].
    The result is the new [smoothness] and the new [a]. *)
Definition smoothness_turn (a : D) (s2 s1 s : KinematicState) (smoothness : D) : D * D :=
  let b := scene_distance scene s1 s in
  let cdist := scene_distance scene s2 s in
  let acosValue := (a * a + b * b - cdist * cdist) / (d_two * a * b) in
  let smoothness' :=
    if (d_opp d_one <? acosValue) && (acosValue <? d_one) then
      let angle := d_pi - d_acos acosValue in
      let u := d_two * angle in
      smoothness + u * u
    else smoothness in
  (smoothness', b).

Fixpoint smoothness_loop (a : D) (s2 s1 : KinematicState) (rest : list KinematicState)
    (smoothness : D) : D :=
  match rest with
  | [] => smoothness
  | s :: rest' =>
      let '(smoothness', b) := smoothness_turn a s2 s1 s smoothness in
      smoothness_loop b s1 s rest' smoothness'
  end.

(** [if (p.size() > 2) { ...; smoothness /= (double)p.size(); }], starting
    from [smoothness = 0.0]. *)
Definition path_smoothness (p : list KinematicState) : D :=
  match p with
  | s0 :: s1 :: (_ :: _) as rest =>
      smoothness_loop (scene_distance scene s0 s1) s0 s1 rest d_zero
        / d_of_size (length p)
  | _ => d_zero
  end.

(** The body of the loop over [mp_res.trajectory] for one segment: five
    properties are stored under the segment's description and the
    segment's time is taken off [process_time]. *)
Definition collect_segment (start : RobotState)
    (acc : gmap string string * D) (seg : Segment) : gmap string string * D :=
  let '(rundata, process_time) := acc in
  let p := scene_convert scene start (seg_trajectory seg) in
  let name := "path_" +:+ seg_description seg in
  let rundata := <[name +:+ "_correct BOOLEAN" := bool_lexical_cast (path_correct p)]> rundata in
  let rundata := <[name +:+ "_length REAL" := d_lexical_cast (path_length p)]> rundata in
  let rundata := <[name +:+ "_clearance REAL" := d_lexical_cast (path_clearance p)]> rundata in
  let rundata := <[name +:+ "_smoothness REAL" := d_lexical_cast (path_smoothness p)]> rundata in
  let rundata := <[name +:+ "_time REAL" := duration_lexical_cast (seg_processing_time seg)]> rundata in
  (rundata, process_time - toSec (seg_processing_time seg)).

(** [if (process_time <= 0.0) process_time = 0.0;] *)
Definition floor_at_zero (process_time : D) : D :=
  if process_time <=? d_zero then d_zero else process_time.

Definition collectMetrics (rundata : gmap string string)
    (mp_res : MotionPlanDetailedResponse) (solved : bool) (total_time : D)
  : gmap string string :=
  let rundata := <["total_time REAL" := d_lexical_cast total_time]> rundata in
  let rundata := <["solved BOOLEAN" := bool_lexical_cast solved]> rundata in
  if solved then
    let '(rundata, process_time) :=
      fold_left (collect_segment (trajectory_start mp_res)) (segments mp_res)
        (rundata, total_time) in
    <["process_time REAL" := d_lexical_cast (floor_at_zero process_time)]> rundata
  else rundata.

End Metrics.

(** ** Requests, planners and the environment *)

(** [moveit_msgs::PlannerInterfaceDescription]. *)
Record PlannerInterfaceDescription := {
  pid_name : string;
  pid_planner_ids : list string
}.

(** [moveit_msgs::MotionPlanRequest]: the three fields the service reads
    or writes, and the rest of the message. *)
Record MotionPlanRequest := {
  group_name : string;
  planner_id : string;
  allowed_planning_time : Duration;
  request_body : RequestBody
}.

Definition set_planner_id (mp_req : MotionPlanRequest) (id : string) : MotionPlanRequest :=
  {| group_name := group_name mp_req;
     planner_id := id;
     allowed_planning_time := allowed_planning_time mp_req;
     request_body := request_body mp_req |}.

(** [moveit_msgs::ComputePlanningBenchmark::Request].  The two counts are
    [uint32] in the message and are widened to [std::size_t] before use. *)
Record Request := {
  req_motion_plan_request : MotionPlanRequest;
  req_planner_interfaces : list PlannerInterfaceDescription;
  req_default_average_count : nat;
  req_average_count : list nat;
  req_filename : string;
  req_scene : SceneMsg
}.

(** [MoveItErrorCodes::SUCCESS]. *)
Definition SUCCESS : Z := 1.

(** [moveit_msgs::ComputePlanningBenchmark::Response].  An entry of
    [res_responses] is [None] while it is the default-constructed message
    [resize] put there. *)
Record Response := {
  res_planner_interfaces : list PlannerInterfaceDescription;
  res_responses : list (option MotionPlanDetailedResponse);
  res_filename : string;
  res_error_code : Z
}.

(** [planning_interface::Planner].  [solve] runs in a world (the planner's
    own state and the wall clock) and overwrites the response object it is
    handed. *)
Record Planner := {
  getDescription : string;
  getPlanningAlgorithms : list string;
  canServiceRequest : MotionPlanRequest → bool;
  solve : World → PlanningScene → MotionPlanRequest → MotionPlanDetailedResponse
          → bool * MotionPlanDetailedResponse * World
}.

(** What the service takes from its host: [ros::WallTime::now()],
    [getHostname()] (empty when [gethostname] fails), whether
    [std::ofstream out(name)] opens the file, the scene's
    [setPlanningSceneMsg], and [std::ostream << MotionPlanRequest]. *)
Record Environment := {
  env_now : World → WallTime;
  env_hostname : string;
  env_ofstream_opens : string → bool;
  env_setPlanningSceneMsg : PlanningScene → SceneMsg → PlanningScene;
  env_ostream_request : MotionPlanRequest → string
}.

(** Files by name, each a list of lines. *)
Abbreviation FileSystem := (gmap string (list string)).

(** ** Which planners and algorithms to test *)

(** The search for [found]: the first index [i] with
    [req.planner_interfaces[i].name == it->first], and the entry there. *)
Fixpoint find_requested (name : string) (i : nat) (l : list PlannerInterfaceDescription)
  : option (nat * PlannerInterfaceDescription) :=
  match l with
  | [] => None
  | d :: l' =>
      if bool_decide (pid_name d = name) then Some (i, d)
      else find_requested name (S i) l'
  end.

(** The loop over [known] that sets [fnd]. *)
Fixpoint is_known (group : string) (known : list string) (id : string) : bool :=
  match known with
  | [] => false
  | k :: known' =>
      if bool_decide (k = id) || bool_decide (group +:+ "[" +:+ k +:+ "]" = id)
      then true
      else is_known group known' id
  end.

(** The loop over the requested ids: an id is pushed when [fnd] and
    dropped (with a logged error) otherwise. *)
Fixpoint keep_known (group : string) (known requested : list string) : list string :=
  match requested with
  | [] => []
  | id :: requested' =>
      if is_known group known id then id :: keep_known group known requested'
      else keep_known group known requested'
  end.

(** One accepted planner: its entries in [res.planner_interfaces], [pi],
    [planner_ids] and [average_count].  The four vectors grow together, one
    entry each per accepted planner. *)
Record Candidate := {
  cand_name : string;
  cand_planner : Planner;
  cand_planner_ids : list string;
  cand_average_count : nat
}.

(** The body of the loop over [planner_interfaces_] for one planner;
    [None] when the planner is skipped. *)
Definition select_planner (req : Request) (name : string) (p : Planner) : option Candidate :=
  let mp_req := req_motion_plan_request req in
  let found := find_requested name 0 (req_planner_interfaces req) in
  if bool_decide (req_planner_interfaces req ≠ []) && bool_decide (found = None) then None
  else if canServiceRequest p mp_req then
    let default_count := Nat.max 1 (req_default_average_count req) in
    let known := getPlanningAlgorithms p in
    match found with
    | None => Some (Build_Candidate name p known default_count)
    | Some (i, d) =>
        match pid_planner_ids d with
        | [] => Some (Build_Candidate name p known default_count)
        | _ :: _ =>
            let count :=
              match req_average_count req !! i with
              | Some n => Nat.max 1 n
              | None => default_count
              end in
            Some (Build_Candidate name p
                    (keep_known (group_name mp_req) known (pid_planner_ids d)) count)
        end
    end
  else None.

(** The loop over [planner_interfaces_], a [std::map] walked in key
    order: the registry is its list of entries in that order. *)
Definition select_planners (registry : list (string * Planner)) (req : Request)
  : list Candidate :=
  omap (λ '(name, p), select_planner req name p) registry.

(** [total_n_planners] and [total_n_runs]. *)
Definition count_totals (cands : list Candidate) : nat * nat :=
  fold_left
    (λ '(total_n_planners, total_n_runs) c,
       (total_n_planners + length (cand_planner_ids c),
        total_n_runs + length (cand_planner_ids c) * cand_average_count c))
    cands (0, 0).

(** ** Running the trials *)

(** What the trial loops carry: the world, the one [mp_res] object every
    [solve] call writes to, and the response recorded for the planner at
    hand ([None] while [first[i]] is still true). *)
Definition TrialState : Type :=
  World * MotionPlanDetailedResponse * option MotionPlanDetailedResponse.

Section Trials.
Variable env : Environment.
Variable scene : PlanningScene.

(** One pass of the innermost loop; [runs[c]] is an empty map before
    [collectMetrics] fills it. *)
Definition run_trial (pl : Planner) (mp_req : MotionPlanRequest) (st : TrialState)
  : gmap string string * TrialState :=
  let '(w, mp_res, first) := st in
  let start := env_now env w in
  let '(solved, mp_res', w') := solve pl w scene mp_req mp_res in
  let total_time := wall_elapsed (env_now env w') start in
  let rundata := collectMetrics scene ∅ mp_res' solved total_time in
  let first' :=
    match first with
    | None => if solved then Some mp_res' else None
    | Some r => Some r
    end in
  (rundata, (w', mp_res', first')).

(** [for c = 0 .. average_count[i]-1], giving [runs]. *)
Fixpoint run_repetitions (pl : Planner) (mp_req : MotionPlanRequest) (n : nat)
    (st : TrialState) : list (gmap string string) * TrialState :=
  match n with
  | 0 => ([], st)
  | S n' =>
      let '(rundata, st1) := run_trial pl mp_req st in
      let '(runs, st2) := run_repetitions pl mp_req n' st1 in
      (rundata :: runs, st2)
  end.

(** [for j = 0 .. planner_ids[i].size()-1]: the runs of each algorithm of
    one planner, in order. *)
Fixpoint run_algorithms (pl : Planner) (mp_req : MotionPlanRequest) (n : nat)
    (ids : list string) (st : TrialState)
  : list (list (gmap string string)) * MotionPlanRequest * TrialState :=
  match ids with
  | [] => ([], mp_req, st)
  | id :: ids' =>
      let mp_req1 := set_planner_id mp_req id in
      let '(runs, st1) := run_repetitions pl mp_req1 n st in
      let '(data, mp_req2, st2) := run_algorithms pl mp_req1 n ids' st1 in
      (runs :: data, mp_req2, st2)
  end.

(** [for i = 0 .. pi.size()-1]: [data] in the order it is pushed, and
    for each planner the response of its first solved trial. *)
Fixpoint run_planners (cands : list Candidate) (mp_req : MotionPlanRequest)
    (w : World) (mp_res : MotionPlanDetailedResponse)
  : list (list (gmap string string)) * list (option MotionPlanDetailedResponse)
    * (World * MotionPlanDetailedResponse) :=
  match cands with
  | [] => ([], [], (w, mp_res))
  | c :: cands' =>
      let '(data, mp_req1, (w1, mp_res1, first)) :=
        run_algorithms (cand_planner c) mp_req (cand_average_count c)
          (cand_planner_ids c) (w, mp_res, None) in
      let '(data', responses, fin) := run_planners cands' mp_req1 w1 mp_res1 in
      (data ++ data', first :: responses, fin)
  end.

End Trials.

(** ** The report *)

(** [std::string]'s [operator<], the order of [std::set<std::string>]. *)
Definition string_le (a b : string) : Prop := String.leb a b = true.

#[global] Instance string_le_dec : RelDecision string_le.
Proof. intros a b. unfold string_le. apply _. Defined.

(** [propSeen] after the two loops that insert every key of every run. *)
Definition propSeen (runs : list (gmap string string)) : gset string :=
  fold_left (λ seen rundata, seen ∪ dom rundata) runs ∅.

(** [properties]: the elements of [propSeen] in the set's order. *)
Definition properties (runs : list (gmap string string)) : list string :=
  merge_sort string_le (elements (propSeen runs)).

(** The fields of one run's row: the stored value where the run has the
    property and nothing where it has not. *)
Definition row_fields (props : list string) (rundata : gmap string string) : list string :=
  map (λ k, default "" (rundata !! k)) props.

(** The row as written: every field is followed by ["; "]. *)
Definition row_line (props : list string) (rundata : gmap string string) : string :=
  foldr (λ field rest, field +:+ "; " +:+ rest) "" (row_fields props rundata).

(** The lines written for one (planner, algorithm) group. *)
Definition write_group (label : string) (runs : list (gmap string string)) : list string :=
  [label; "0 common properties";
   pretty (length (properties runs)) +:+ " properties for each run"]
  ++ properties runs
  ++ [pretty (length runs) +:+ " runs"]
  ++ map (row_line (properties runs)) runs
  ++ ["."].

(** The first line of each group, in the order of the loops over [q] and
    [p]; [ri] walks [data] in step with it. *)
Definition group_labels (cands : list Candidate) : list string :=
  c ← cands;
  (λ id, getDescription (cand_planner c) +:+ "_" +:+ id) <$> cand_planner_ids c.

(** The lines from ["Experiment"] to the planner count. *)
Definition report_header (env : Environment) (scene : PlanningScene) (req : Request)
    (startTime : WallTime) (duration : D) (total_n_planners : nat) : list string :=
  let host := env_hostname env in
  [ "Experiment " +:+ (if bool_decide (scene_name scene = "") then "NO_NAME" else scene_name scene);
    "Running on " +:+ (if bool_decide (host = "") then "UNKNOWN" else host);
    "Starting at " +:+ to_iso_extended_string startTime;
    "<<<|";
    "ROS";
    env_ostream_request env (req_motion_plan_request req);
    "|>>>";
    d_ostream (toSec (allowed_planning_time (req_motion_plan_request req))) +:+ " seconds per run";
    d_ostream duration +:+ " seconds spent to collect the data";
    pretty total_n_planners +:+ " planners" ].

Definition report_lines (env : Environment) (scene : PlanningScene) (req : Request)
    (startTime : WallTime) (duration : D) (cands : list Candidate)
    (data : list (list (gmap string string))) : list string :=
  report_header env scene req startTime duration (count_totals cands).1
  ++ ('(label, runs) ← zip (group_labels cands) data; write_group label runs).

(** [res.filename]: the requested name, or one made of the host and the
    start time. *)
Definition report_filename (env : Environment) (req : Request) (startTime : WallTime)
  : string :=
  if bool_decide (req_filename req = "") then
    "moveit_benchmarks_" +:+ env_hostname env +:+ "_"
      +:+ to_iso_extended_string startTime +:+ ".log"
  else req_filename req.

(** [res.responses.resize(pi.size())] followed by the assignments
    [res.responses[i] = mp_res] at the first solved trial of planner [i]:
    [firsts] holds that response for each planner, if there was one. *)
Definition record_first_solutions (n : nat)
    (old firsts : list (option MotionPlanDetailedResponse))
  : list (option MotionPlanDetailedResponse) :=
  zip_with (λ first kept, match first with Some r => Some r | None => kept end)
    firsts (take n (old ++ replicate n None)).

(** ** The service call *)

(** What a call leaves behind: the return value, the response, the
    files, and the service's scene and world. *)
Record Outcome := {
  out_return : bool;
  out_res : Response;
  out_files : FileSystem;
  out_scene : PlanningScene;
  out_world : World
}.

Definition computeBenchmark (env : Environment) (registry : list (string * Planner))
    (scene : PlanningScene) (files : FileSystem) (w : World)
    (mp_res0 : MotionPlanDetailedResponse) (req : Request) (res : Response) : Outcome :=
  let cands := select_planners registry req in
  let res1 :=
    {| res_planner_interfaces := (λ c, Build_PlannerInterfaceDescription (cand_name c) []) <$> cands;
       res_responses := res_responses res;
       res_filename := res_filename res;
       res_error_code := res_error_code res |} in
  match cands with
  | [] => Build_Outcome false res1 files scene w
  | _ :: _ =>
      let scene' := env_setPlanningSceneMsg env scene (req_scene req) in
      let startTime := env_now env w in
      let '(data, firsts, (w', _)) :=
        run_planners env scene' cands (req_motion_plan_request req) w mp_res0 in
      let duration := wall_elapsed (env_now env w') startTime in
      let filename := report_filename env req startTime in
      let files' :=
        if env_ofstream_opens env filename then
          <[filename := report_lines env scene' req startTime duration cands data]> files
        else files in
      Build_Outcome true
        {| res_planner_interfaces := res_planner_interfaces res1;
           res_responses := record_first_solutions (length cands) (res_responses res) firsts;
           res_filename := filename;
           res_error_code := SUCCESS |}
        files' scene' w'
  end.

(** ** The query service *)

(** [queryInterfaces]: one description per registered planner is pushed
    onto [res.planner_interfaces], in the order of the map; the call
    returns [true]. *)
Definition queryInterfaces (registry : list (string * Planner))
    (res_planner_interfaces : list PlannerInterfaceDescription)
  : bool * list PlannerInterfaceDescription :=
  (true,
   fold_left
     (λ res '(name, p),
        res ++ [Build_PlannerInterfaceDescription name (getPlanningAlgorithms p)])
     registry res_planner_interfaces).

(** ** Loading the planners *)

(** [m[k] = v] on a [std::map], kept as its list of entries in key
    order: the entry of an equal key is replaced, a new key goes before the
    first greater one. *)
Fixpoint map_assign {V : Type} (k : string) (v : V) (m : list (string * V))
  : list (string * V) :=
  match m with
  | [] => [(k, v)]
  | (k', v') :: m' =>
      if String.ltb k k' then (k, v) :: (k', v') :: m'
      else if bool_decide (k = k') then (k, v) :: m'
      else (k', v') :: map_assign k v m'
  end.

(** The loop of the constructor over the declared classes, reached when
    the model and the scene could be set up: [createInstance] with [init]
    gives the planner, or nothing when the plugin loader throws; a planner
    that loads is assigned to [planner_interfaces_] under the name of its
    class. *)
Definition load_planners (createInstance : string → option Planner)
    (classes : list string) : list (string * Planner) :=
  fold_left
    (λ planner_interfaces_ class,
       match createInstance class with
       | Some p => map_assign class p planner_interfaces_
       | None => planner_interfaces_
       end)
    classes [].

(** The two services are advertised unless [planner_interfaces_] is
    empty. *)
Definition advertises (planner_interfaces_ : list (string * Planner)) : bool :=
  bool_decide (planner_interfaces_ ≠ []).

(** ** The metrics as the specification words them *)

Section Specification.
Variable scene : PlanningScene.

Local Open Scope double_scope.

(** The turn at waypoint index [i ≥ 2]: with sides [a = dist(i-2,i-1)],
    [b = dist(i-1,i)] and [c = dist(i-2,i)], the cosine is
    [(a² + b² − c²) / (2ab)]; strictly inside (-1, 1) the turn contributes
    [(2·(π − arccos cos))²], and nothing otherwise. *)
Definition spec_turn (p : list KinematicState) (i : nat) : option D :=
  match p !! (i - 2)%nat, p !! (i - 1)%nat, p !! i with
  | Some x, Some y, Some z =>
      let a := scene_distance scene x y in
      let b := scene_distance scene y z in
      let c := scene_distance scene x z in
      let cos_theta := (a * a + b * b - c * c) / (d_two * a * b) in
      if (d_opp d_one <? cos_theta) && (cos_theta <? d_one) then
        let angle := d_pi - d_acos cos_theta in
        Some ((d_two * angle) * (d_two * angle))
      else None
  | _, _, _ => None
  end.

(** The contributions of the indices 2, 3, ... accumulated in that order
    and divided by the waypoint count; 0 below three waypoints. *)
Definition spec_smoothness (p : list KinematicState) : D :=
  if bool_decide (length p < 3)%nat then d_zero
  else
    fold_left
      (λ total i, match spec_turn p i with Some u2 => total + u2 | None => total end)
      (seq 2 (length p - 2)) d_zero
    / d_of_size (length p).

(** The distance-to-collision values of the waypoints, accumulated in
    order from 0. *)
Definition spec_clearance_sum (p : list KinematicState) : D :=
  fold_left (λ total s, total + scene_distanceToCollision scene s) p d_zero.

(** The total wall time of a trial with the segments' solve times taken
    off, floored at 0. *)
Definition spec_residual (total_time : D) (segs : list Segment) : D :=
  let rest :=
    fold_left (λ t seg, t - toSec (seg_processing_time seg)) segs total_time in
  if rest <=? d_zero then d_zero else rest.

End Specification.

(** A requested name matches when it is a declared id or
    [<groupName>[<declaredId>]] for a declared id. *)
Definition spec_matches (group : string) (known : list string) (id : string) : Prop :=
  Exists (λ k, id = k ∨ id = group +:+ "[" +:+ k +:+ "]") known.

#[global] Instance spec_matches_dec group known id : Decision (spec_matches group known id).
Proof. unfold spec_matches. apply _. Defined.

(** The repetition counts of the groups, in report order: every
    algorithm of a planner gets the planner's count. *)
Definition group_repetitions (cands : list Candidate) : list nat :=
  c ← cands; replicate (length (cand_planner_ids c)) (cand_average_count c).

(** ** The trial matrix as the specification words it *)

(** The trials in planner, algorithm, repetition order: every algorithm
    of every tested planner, as often as the planner has repetitions. *)
Definition spec_trial_matrix (cands : list Candidate) : list (Planner * string) :=
  c ← cands; id ← cand_planner_ids c;
  replicate (cand_average_count c) (cand_planner c, id).

(** One trial: the algorithm id is set on the problem, [solve] is
    invoked, the wall time is measured, and the outcome and the trajectory
    go to [collectMetrics], which gives the record. *)
Definition spec_trial (env : Environment) (scene : PlanningScene)
    (mp_req : MotionPlanRequest) (trial : Planner * string)
    (st : World * MotionPlanDetailedResponse)
  : gmap string string * (World * MotionPlanDetailedResponse) :=
  let '(solved, mp_res', w') :=
    solve trial.1 st.1 scene (set_planner_id mp_req trial.2) st.2 in
  (collectMetrics scene ∅ mp_res' solved (wall_elapsed (env_now env w') (env_now env st.1)),
   (w', mp_res')).

(** The trials one after the other, each in the world the one before
    left, whatever their outcomes: no trial is skipped. *)
Fixpoint spec_run_all (env : Environment) (scene : PlanningScene)
    (mp_req : MotionPlanRequest) (trials : list (Planner * string))
    (st : World * MotionPlanDetailedResponse)
  : list (gmap string string) * (World * MotionPlanDetailedResponse) :=
  match trials with
  | [] => ([], st)
  | trial :: trials' =>
      let '(rundata, st1) := spec_trial env scene mp_req trial st in
      let '(records, st2) := spec_run_all env scene mp_req trials' st1 in
      (rundata :: records, st2)
  end.

(** ** The report as the specification words it *)

(** A run row: for every column the value of the run, or nothing when
    the run lacks the property, followed by ["; "]. *)
Definition spec_row (columns : list string) (rundata : gmap string string) : string :=
  String.concat "" ((λ k, default "" (rundata !! k) +:+ "; ") <$> columns).

(** The section of a group with [N] repetitions: the name of the group,
    the line of the common properties, the count and the names of the
    columns, the count of the runs and one row per run, and the closing
    dot. *)
Definition spec_section (label : string) (N : nat) (columns : list string)
    (runs : list (gmap string string)) : list string :=
  [label; "0 common properties"; pretty (length columns) +:+ " properties for each run"]
  ++ columns
  ++ [pretty N +:+ " runs"]
  ++ (spec_row columns <$> runs)
  ++ ["."].

End Model.

(** ** A concrete service

    Binary64 arithmetic, one-dimensional configurations, a clock that
    ticks once per [solve], and planners that solve exactly the algorithm
    ids on a list.  No path here has three waypoints, so libm is never
    called. *)
Module Fixture.

(** A float as text: sign, odd mantissa and binary exponent, so that 5.0
    reads [5p0] and 0.5 reads [1p-1]. *)
Fixpoint odd_mantissa (m : positive) (e : Z) : positive * Z :=
  match m with
  | xO m' => odd_mantissa m' (e + 1)%Z
  | _ => (m, e)
  end.

Definition show_float (x : float) : string :=
  match Prim2SF x with
  | S754_zero s => if s then "-0" else "0"
  | S754_infinity s => if s then "-inf" else "inf"
  | S754_nan => "nan"
  | S754_finite s m e =>
      let '(m', e') := odd_mantissa m e in
      (if s then "-" else "") +:+ pretty (Zpos m') +:+ "p" +:+ pretty e'
  end.

Definition double_ops : DoubleOps float :=
  ieee_double (λ _, nan) show_float show_float.

Definition ros_time : RosTime float :=
  {| Duration := float;
     toSec := id;
     duration_lexical_cast := show_float;
     WallTime := float;
     wall_elapsed := PrimFloat.sub;
     to_iso_extended_string := show_float |}.

#[export] Existing Instance double_ops.
#[export] Existing Instance ros_time.

Definition Scene : Type := @PlanningScene float float unit (list float).
Definition Plan : Type := @MotionPlanDetailedResponse float ros_time unit (list float).
Definition Problem : Type := @MotionPlanRequest float ros_time unit.
Definition Interface : Type :=
  @Planner float ros_time float unit (list float) unit nat.

Definition scene : Scene :=
  {| scene_name := "";
     scene_convert := λ _ t, t;
     scene_distance := λ x y, PrimFloat.abs (x - y);
     scene_collision := λ _, false;
     scene_distanceToCollision := λ _, 1%float |}.

(** A straight two-waypoint path found in half a second. *)
Definition plan : Plan :=
  {| trajectory_start := tt;
     segments :=
       [ {| seg_trajectory := [0%float; 1%float];
            seg_description := "plan";
            seg_processing_time := 0.5%float |} ] |}.

Definition no_plan : Plan := {| trajectory_start := tt; segments := [] |}.

(** A planner that solves the ids of [solvable] and fails the others; the
    world counts the calls of [solve]. *)
Definition planner (description : string) (declared solvable : list string) : Interface :=
  {| getDescription := description;
     getPlanningAlgorithms := declared;
     canServiceRequest := λ _, true;
     solve := λ (w : nat) _ (mp_req : Problem) (mp_res : Plan),
       if bool_decide (planner_id mp_req ∈ solvable) then (true, plan, S w)
       else (false, mp_res, S w) |}.

Definition registry : list (string * Interface) :=
  [ ("A", planner "A" ["x"; "y"] ["x"]); ("B", planner "B" ["z"] ["z"]) ].

Definition env (opens : bool) : @Environment float ros_time float unit (list float) unit unit nat :=
  {| env_now := λ w : nat, PrimFloat.of_uint63 (Uint63.of_Z (Z.of_nat w));
     env_hostname := "host";
     env_ofstream_opens := λ _, opens;
     env_setPlanningSceneMsg := λ sc _, sc;
     env_ostream_request := λ _, "request" |}.

Definition problem : Problem :=
  {| group_name := "arm";
     planner_id := "";
     allowed_planning_time := 5%float;
     request_body := tt |}.

(** Planner A with algorithms x and y, twice each; planner B with z,
    once. *)
Definition request : @Request float ros_time unit unit :=
  {| req_motion_plan_request := problem;
     req_planner_interfaces :=
       [ Build_PlannerInterfaceDescription "A" ["x"; "y"];
         Build_PlannerInterfaceDescription "B" ["z"] ];
     req_default_average_count := 1;
     req_average_count := [2; 1];
     req_filename := "out.log";
     req_scene := tt |}.

(** Planner A named without algorithm ids, with a count of 5 for it. *)
Definition request_all_of_A : @Request float ros_time unit unit :=
  {| req_motion_plan_request := problem;
     req_planner_interfaces := [ Build_PlannerInterfaceDescription "A" [] ];
     req_default_average_count := 1;
     req_average_count := [5];
     req_filename := "out.log";
     req_scene := tt |}.

(** Planner A with one declared id, one unknown name and one id in the
    group form. *)
Definition request_one_unknown : @Request float ros_time unit unit :=
  {| req_motion_plan_request := problem;
     req_planner_interfaces :=
       [ Build_PlannerInterfaceDescription "A" ["x"; "nope"; "arm[y]"] ];
     req_default_average_count := 1;
     req_average_count := [];
     req_filename := "out.log";
     req_scene := tt |}.

(** A restriction to a planner the registry does not hold. *)
Definition request_unknown : @Request float ros_time unit unit :=
  {| req_motion_plan_request := problem;
     req_planner_interfaces := [ Build_PlannerInterfaceDescription "C" [] ];
     req_default_average_count := 1;
     req_average_count := [];
     req_filename := "out.log";
     req_scene := tt |}.

Definition response : @Response float ros_time unit (list float) :=
  {| res_planner_interfaces := [];
     res_responses := [];
     res_filename := "";
     res_error_code := 0 |}.

Definition run (opens : bool) req :=
  computeBenchmark (env opens) registry scene ∅ 0 no_plan req response.

End Fixture.


(** * Properties *)

(** ** Strings and maps *)

Lemma string_app_inj (s a b : string) : s +:+ a = s +:+ b → a = b.
Proof. induction s as [|c s IH]; simpl; [done|]. intros [= H]. by apply IH. Qed.

Section MetricsProperties.
Context {D : Type} {dops : DoubleOps D} {rt : RosTime D}.
Context {KinematicState RobotState RobotTrajectory : Type}.
Variable scene : @PlanningScene D KinematicState RobotState RobotTrajectory.

Local Open Scope double_scope.

(** The loop carries [a] from turn to turn; on the path
    [pre ++ s2 :: s1 :: rest] it accumulates the turns of the indices
    from [length pre + 2] on. *)
Lemma smoothness_loop_spec_turn (rest pre : list KinematicState) (s2 s1 : KinematicState)
    (acc : D) :
  smoothness_loop scene (scene_distance scene s2 s1) s2 s1 rest acc =
  fold_left
    (λ total i,
       match spec_turn scene (pre ++ s2 :: s1 :: rest) i with
       | Some u2 => total + u2
       | None => total
       end)
    (seq (length pre + 2) (length rest)) acc.
Proof.
  revert pre s2 s1 acc.
  induction rest as [|s rest IH]; intros pre s2 s1 acc; [done|].
  cbn [smoothness_loop length seq fold_left].
  assert (Hturn : spec_turn scene (pre ++ s2 :: s1 :: s :: rest) (length pre + 2) =
    let b := scene_distance scene s1 s in
    let c := scene_distance scene s2 s in
    let a := scene_distance scene s2 s1 in
    let cos_theta := (a * a + b * b - c * c) / (d_two * a * b) in
    if (d_opp d_one <? cos_theta) && (cos_theta <? d_one)
    then Some ((d_two * (d_pi - d_acos cos_theta)) * (d_two * (d_pi - d_acos cos_theta)))
    else None).
  { unfold spec_turn.
    rewrite !lookup_app_r by lia.
    replace (length pre + 2 - 2 - length pre)%nat with 0%nat by lia.
    replace (length pre + 2 - 1 - length pre)%nat with 1%nat by lia.
    replace (length pre + 2 - length pre)%nat with 2%nat by lia.
    done. }
  rewrite Hturn. unfold smoothness_turn. cbv zeta.
  specialize (IH (pre ++ [s2]) s1 s).
  rewrite <- (assoc_L (++)) in IH. simpl in IH.
  rewrite length_app in IH. simpl in IH.
  replace (length pre + 1 + 2)%nat with (S (length pre + 2)) in IH by lia.
  destruct (_ && _); apply IH.
Qed.

Lemma path_smoothness_refines (p : list KinematicState) :
  path_smoothness scene p = spec_smoothness scene p.
Proof.
  destruct p as [|s0 [|s1 [|s rest]]]; try done.
  unfold path_smoothness, spec_smoothness.
  rewrite bool_decide_eq_false_2 by (simpl; lia).
  by rewrite (smoothness_loop_spec_turn (s :: rest) [] s0 s1 d_zero).
Qed.

Lemma clearance_loop_sum (p : list KinematicState) (correct : bool) (acc : D) :
  (clearance_loop scene correct acc p).2 =
  fold_left (λ total s, total + scene_distanceToCollision scene s) p acc.
Proof.
  revert correct acc. induction p as [|s p IH]; intros correct acc; [done|].
  simpl. apply IH.
Qed.

(** The five properties of a segment, as [collect_segment] leaves them. *)
Lemma collect_segment_lookup (start : RobotState) (rundata : gmap string string)
    (process_time : D) (seg : Segment) :
  let p := scene_convert scene start (seg_trajectory seg) in
  let name := "path_" +:+ seg_description seg in
  let rundata' := (collect_segment scene start (rundata, process_time) seg).1 in
  rundata' !! (name +:+ "_correct BOOLEAN") = Some (bool_lexical_cast (path_correct scene p))
  ∧ rundata' !! (name +:+ "_length REAL") = Some (d_lexical_cast (path_length scene p))
  ∧ rundata' !! (name +:+ "_clearance REAL") = Some (d_lexical_cast (path_clearance scene p))
  ∧ rundata' !! (name +:+ "_smoothness REAL") = Some (d_lexical_cast (path_smoothness scene p))
  ∧ rundata' !! (name +:+ "_time REAL") = Some (duration_lexical_cast (seg_processing_time seg)).
Proof.
  intros p name rundata'. subst rundata'. unfold collect_segment. cbv zeta. cbn [fst].
  fold p. fold name.
  repeat split;
    repeat (rewrite lookup_insert_ne by (intros [=]%string_app_inj));
    by rewrite lookup_insert_eq.
Qed.

(** [process_time] after the loop over the segments. *)
Lemma collect_segments_process_time (start : RobotState) (segs : list Segment)
    (rundata : gmap string string) (process_time : D) :
  (fold_left (collect_segment scene start) segs (rundata, process_time)).2 =
  fold_left (λ t seg, t - toSec (seg_processing_time seg)) segs process_time.
Proof.
  revert rundata process_time.
  induction segs as [|seg segs IH]; intros rundata process_time; [done|].
  simpl. apply IH.
Qed.

(** What a trial stores under ["process_time REAL"]. *)
Lemma collectMetrics_process_time (rundata : gmap string string)
    (mp_res : MotionPlanDetailedResponse) (solved : bool) (total_time : D) :
  collectMetrics scene rundata mp_res solved total_time !! "process_time REAL" =
  if solved then Some (d_lexical_cast (spec_residual total_time (segments mp_res)))
  else rundata !! "process_time REAL".
Proof.
  unfold collectMetrics. cbv zeta. destruct solved.
  - destruct (fold_left _ _ _) as [rundata' process_time] eqn:E.
    rewrite lookup_insert_eq. unfold spec_residual, floor_at_zero.
    by rewrite <- (collect_segments_process_time (trajectory_start mp_res) _
                     (<["solved BOOLEAN":=bool_lexical_cast true]>
                        (<["total_time REAL":=d_lexical_cast total_time]> rundata))), E.
  - by rewrite !lookup_insert_ne.
Qed.

(** In exact arithmetic, where taking off [s] and then [t] is taking off
    [s + t], the residual is the total minus the sum of the segment
    times, floored at 0.  (Binary64 rounds after every step, so there the
    residual is defined by the order of the subtractions.) *)
Section ExactArithmetic.
Hypothesis sub_zero : ∀ x : D, x - d_zero = x.
Hypothesis sub_sub : ∀ x s t : D, x - s - t = x - (s + t).

Lemma segment_times_taken_off (segs : list (@Segment D rt RobotTrajectory)) (x s : D) :
  fold_left (λ t seg, t - toSec (seg_processing_time seg)) segs (x - s) =
  x - fold_left (λ t seg, t + toSec (seg_processing_time seg)) segs s.
Proof.
  revert s. induction segs as [|seg segs IH]; intros s; [done|].
  cbn [fold_left]. by rewrite sub_sub, IH.
Qed.

Lemma spec_residual_total_minus_sum (total_time : D)
    (segs : list (@Segment D rt RobotTrajectory)) :
  spec_residual total_time segs =
  floor_at_zero
    (total_time - fold_left (λ t seg, t + toSec (seg_processing_time seg)) segs d_zero).
Proof.
  unfold spec_residual, floor_at_zero. cbv zeta.
  by rewrite <- segment_times_taken_off, sub_zero.
Qed.

End ExactArithmetic.

(** An unsolved trial stores its time and the flag, and that is all. *)
Lemma collectMetrics_unsolved (rundata : gmap string string)
    (mp_res : MotionPlanDetailedResponse) (total_time : D) :
  collectMetrics scene rundata mp_res false total_time =
  <["solved BOOLEAN" := "0"]> (<["total_time REAL" := d_lexical_cast total_time]> rundata).
Proof. done. Qed.

(** C2. The smoothness stored for a segment is the specification's: the
    turns at the indices 2, 3, ... with the cosine strictly inside (-1, 1)
    contribute [(2·(π − arccos))²], the others nothing, the total is
    divided by the waypoint count, and paths of fewer than three
    waypoints get 0. *)
Theorem C2_smoothness_as_specified (start : RobotState)
    (rundata : gmap string string) (process_time : D) (seg : Segment) :
  let p := scene_convert scene start (seg_trajectory seg) in
  path_smoothness scene p = spec_smoothness scene p
  ∧ (collect_segment scene start (rundata, process_time) seg).1
      !! (("path_" +:+ seg_description seg) +:+ "_smoothness REAL")
    = Some (d_lexical_cast (spec_smoothness scene p)).
Proof.
  intros p. split; [apply path_smoothness_refines|].
  rewrite <- path_smoothness_refines.
  apply (collect_segment_lookup start rundata process_time seg).
Qed.

(** The clearance is the accumulated distance-to-collision over the
    waypoint count, whatever the count. *)
Lemma path_clearance_quotient (p : list KinematicState) :
  path_clearance scene p = spec_clearance_sum scene p / d_of_size (length p).
Proof. unfold path_clearance, spec_clearance_sum. by rewrite clearance_loop_sum. Qed.

End MetricsProperties.

Section ServiceProperties.
Context {D : Type} {dops : DoubleOps D} {rt : RosTime D}.
Context {KinematicState RobotState RobotTrajectory : Type}.
Context {RequestBody SceneMsg World : Type}.

Local Abbreviation Planner :=
  (@Planner D rt KinematicState RobotState RobotTrajectory RequestBody World).
Local Abbreviation Candidate :=
  (@Candidate D rt KinematicState RobotState RobotTrajectory RequestBody World).
Local Abbreviation Environment :=
  (@Environment D rt KinematicState RobotState RobotTrajectory RequestBody SceneMsg World).
Local Abbreviation Request := (@Request D rt RequestBody SceneMsg).
Local Abbreviation Scene := (@PlanningScene D KinematicState RobotState RobotTrajectory).

(** *** Selection *)

Lemma is_known_spec_matches (group : string) (known : list string) (id : string) :
  is_known group known id = bool_decide (spec_matches group known id).
Proof.
  unfold spec_matches. induction known as [|k known IH]; cbn [is_known].
  - symmetry. apply bool_decide_eq_false_2. by intros H%Exists_nil.
  - destruct (decide (k = id)) as [->|Hk].
    + rewrite bool_decide_eq_true_2 by done. simpl.
      symmetry. apply bool_decide_eq_true_2. apply Exists_cons. by left; left.
    + rewrite (bool_decide_eq_false_2 (k = id)) by done. simpl.
      destruct (decide (group +:+ "[" +:+ k +:+ "]" = id)) as [Hg|Hg].
      * rewrite bool_decide_eq_true_2 by done.
        symmetry. apply bool_decide_eq_true_2. apply Exists_cons. by left; right.
      * rewrite bool_decide_eq_false_2 by done. rewrite IH.
        apply bool_decide_ext. rewrite Exists_cons.
        split; [by right|]. intros [[?|?]|?]; [congruence|congruence|done].
Qed.

Lemma keep_known_filter (group : string) (known requested : list string) :
  keep_known group known requested = filter (spec_matches group known) requested.
Proof.
  induction requested as [|id requested IH]; [done|].
  cbn [keep_known]. rewrite is_known_spec_matches, IH.
  destruct (decide (spec_matches group known id)) as [Hm|Hm].
  - by rewrite bool_decide_eq_true_2, filter_cons_True.
  - by rewrite bool_decide_eq_false_2, filter_cons_False.
Qed.

(** [found] is the first entry of the request with the planner's name. *)
Lemma find_requested_first (name : string) (l : list PlannerInterfaceDescription)
    (start i : nat) (d : PlannerInterfaceDescription) :
  find_requested name start l = Some (i, d) →
  start ≤ i ∧ l !! (i - start) = Some d ∧ pid_name d = name
  ∧ ∀ j d', j < i - start → l !! j = Some d' → pid_name d' ≠ name.
Proof.
  revert start. induction l as [|e l IH]; intros start; [done|].
  cbn [find_requested]. destruct (decide (pid_name e = name)) as [He|He].
  - rewrite bool_decide_eq_true_2 by done. intros [= <- <-].
    rewrite Nat.sub_diag. repeat split; [lia|done|lia].
  - rewrite bool_decide_eq_false_2 by done. intros Hf.
    destruct (IH _ Hf) as (Hle & Hl & Hn & Hfirst).
    replace (i - start) with (S (i - S start)) by lia.
    repeat split; [lia|done|done|].
    intros [|j] d' Hj; cbn; [by intros [= <-]|].
    apply Hfirst. lia.
Qed.

Lemma select_planners_elem (registry : list (string * Planner)) (req : Request)
    (name : string) (p : Planner) (c : Candidate) :
  (name, p) ∈ registry → select_planner req name p = Some c →
  c ∈ select_planners registry req.
Proof.
  intros Hin Hsel. unfold select_planners. apply list_elem_of_omap.
  exists (name, p). done.
Qed.

Lemma count_totals_fold (cands : list Candidate) (np nr : nat) :
  (fold_left
     (λ '(total_n_planners, total_n_runs) (c : Candidate),
        (total_n_planners + length (cand_planner_ids c),
         total_n_runs + length (cand_planner_ids c) * cand_average_count c))
     cands (np, nr)).1
  = np + length (group_labels cands).
Proof.
  revert np nr. induction cands as [|c cands IH]; intros np nr.
  - simpl. lia.
  - cbn [fold_left]. rewrite IH. unfold group_labels.
    cbn [mbind list_bind]. rewrite !length_app, length_fmap. lia.
Qed.

(** [total_n_planners] counts the (planner, algorithm) groups. *)
Lemma total_n_planners_groups (cands : list Candidate) :
  (count_totals cands).1 = length (group_labels cands).
Proof. unfold count_totals. by rewrite count_totals_fold. Qed.

(** *** Trials *)

Section Trials.
Variable env : Environment.
Variable scene : Scene.

Lemma run_repetitions_length (pl : Planner) mp_req (n : nat) (st : TrialState) :
  length (run_repetitions env scene pl mp_req n st).1 = n.
Proof.
  revert st. induction n as [|n IH]; intros st; [done|].
  cbn [run_repetitions].
  destruct (run_trial env scene pl mp_req st) as [rundata st1].
  specialize (IH st1).
  destruct (run_repetitions env scene pl mp_req n st1) as [runs st2].
  cbn [fst length] in *. by rewrite IH.
Qed.

Lemma run_algorithms_lengths (pl : Planner) mp_req (n : nat) (ids : list string)
    (st : TrialState) :
  length <$> (run_algorithms env scene pl mp_req n ids st).1.1 = replicate (length ids) n.
Proof.
  revert mp_req st. induction ids as [|id ids IH]; intros mp_req st; [done|].
  cbn [run_algorithms].
  pose proof (run_repetitions_length pl (set_planner_id mp_req id) n st) as Hn.
  destruct (run_repetitions env scene pl (set_planner_id mp_req id) n st) as [runs st1].
  specialize (IH (set_planner_id mp_req id) st1).
  destruct (run_algorithms env scene pl (set_planner_id mp_req id) n ids st1)
    as [[data mp_req2] st2].
  cbn [fst snd] in *. cbn [length replicate]. by rewrite fmap_cons, Hn, IH.
Qed.

(** Whatever the planners return, [data] holds one list of runs per
    group and as many runs in it as the group has repetitions. *)
Lemma run_planners_lengths (cands : list Candidate) mp_req (w : World) mp_res :
  length <$> (run_planners env scene cands mp_req w mp_res).1.1 = group_repetitions cands.
Proof.
  revert mp_req w mp_res. induction cands as [|c cands IH]; intros mp_req w mp_res; [done|].
  cbn [run_planners].
  pose proof (run_algorithms_lengths (cand_planner c) mp_req (cand_average_count c)
                (cand_planner_ids c) (w, mp_res, None)) as Hc.
  destruct (run_algorithms env scene (cand_planner c) mp_req (cand_average_count c)
              (cand_planner_ids c) (w, mp_res, None)) as [[data mp_req1] [[w1 mp_res1] first]].
  specialize (IH mp_req1 w1 mp_res1).
  destruct (run_planners env scene cands mp_req1 w1 mp_res1) as [[data' responses] fin].
  cbn [fst snd] in *. unfold group_repetitions in *. cbn [mbind list_bind].
  by rewrite fmap_app, Hc, IH.
Qed.

Lemma run_planners_groups (cands : list Candidate) mp_req (w : World) mp_res :
  length (run_planners env scene cands mp_req w mp_res).1.1 = length (group_labels cands).
Proof.
  rewrite <- (length_fmap length), run_planners_lengths.
  unfold group_repetitions, group_labels.
  induction cands as [|c cands IH]; [done|].
  cbn [mbind list_bind]. by rewrite !length_app, IH, length_replicate, length_fmap.
Qed.

End Trials.

(** *** The report *)

Lemma propSeen_fold (runs : list (gmap string string)) (seen : gset string) :
  fold_left (λ seen rundata, seen ∪ dom rundata) runs seen = seen ∪ ⋃ (dom <$> runs).
Proof.
  revert seen. induction runs as [|rundata runs IH]; intros seen.
  - simpl. by rewrite (right_id_L ∅ (∪)).
  - cbn [fold_left]. rewrite IH, fmap_cons, union_list_cons.
    by rewrite (assoc_L (∪)).
Qed.

(** [propSeen] is the union of the key sets of the group's runs. *)
Lemma propSeen_union (runs : list (gmap string string)) :
  propSeen runs = ⋃ (dom <$> runs).
Proof. unfold propSeen. by rewrite propSeen_fold, (left_id_L ∅ (∪)). Qed.

Lemma properties_length (runs : list (gmap string string)) :
  length (properties runs) = size (⋃ (dom <$> runs) : gset string).
Proof.
  unfold properties. rewrite (Permutation_length (merge_sort_Permutation _ _)).
  by rewrite propSeen_union.
Qed.

Lemma row_fields_length (props : list string) (rundata : gmap string string) :
  length (row_fields props rundata) = length props.
Proof. unfold row_fields. apply length_map. Qed.

Lemma report_planners_line (env : Environment) (scene : Scene) (req : Request)
    (startTime : WallTime) (duration : D) (cands : list Candidate)
    (data : list (list (gmap string string))) :
  report_lines env scene req startTime duration cands data !! 9 =
  Some (pretty (length (group_labels cands)) +:+ " planners").
Proof.
  unfold report_lines. rewrite lookup_app_l by (simpl; lia).
  by rewrite total_n_planners_groups.
Qed.

(** *** The service call *)

(** The call on a non-empty candidate set, with the trial loops named. *)
Lemma computeBenchmark_run (env : Environment) (registry : list (string * Planner))
    (scene : Scene) (files : gmap string (list string)) (w : World) mp_res0
    (req : Request) res :
  select_planners registry req ≠ [] →
  let cands := select_planners registry req in
  let scene' := env_setPlanningSceneMsg env scene (req_scene req) in
  let startTime := env_now env w in
  let r := run_planners env scene' cands (req_motion_plan_request req) w mp_res0 in
  let duration := wall_elapsed (env_now env r.2.1) startTime in
  let filename := report_filename env req startTime in
  computeBenchmark env registry scene files w mp_res0 req res =
  {| out_return := true;
     out_res :=
       {| res_planner_interfaces :=
            (λ c, Build_PlannerInterfaceDescription (cand_name c) []) <$> cands;
          res_responses := record_first_solutions (length cands) (res_responses res) r.1.2;
          res_filename := filename;
          res_error_code := SUCCESS |};
     out_files :=
       if env_ofstream_opens env filename then
         <[filename := report_lines env scene' req startTime duration cands r.1.1]> files
       else files;
     out_scene := scene';
     out_world := r.2.1 |}.
Proof.
  intros Hne cands scene' startTime r duration filename.
  unfold computeBenchmark. fold cands. fold scene' startTime.
  subst duration. subst r.
  destruct cands as [|c cands'] eqn:Hc; [done|].
  by destruct (run_planners env scene' (c :: cands') _ w mp_res0) as [[data responses] [w' m]].
Qed.

Lemma computeBenchmark_return (env : Environment) (registry : list (string * Planner))
    (scene : Scene) (files : gmap string (list string)) (w : World) mp_res0
    (req : Request) res :
  out_return (computeBenchmark env registry scene files w mp_res0 req res) =
  bool_decide (select_planners registry req ≠ []).
Proof.
  destruct (decide (select_planners registry req = [])) as [Hc|Hc].
  - unfold computeBenchmark. rewrite Hc. done.
  - rewrite computeBenchmark_run by done. by rewrite bool_decide_eq_true_2.
Qed.

(** *** The trials in order *)

Section TrialsInOrder.
Variable env : Environment.
Variable scene : Scene.

Lemma spec_run_all_app mp_req (trials1 trials2 : list (Planner * string))
    (st : World * MotionPlanDetailedResponse) :
  spec_run_all env scene mp_req (trials1 ++ trials2) st =
  ((spec_run_all env scene mp_req trials1 st).1
   ++ (spec_run_all env scene mp_req trials2 (spec_run_all env scene mp_req trials1 st).2).1,
   (spec_run_all env scene mp_req trials2 (spec_run_all env scene mp_req trials1 st).2).2).
Proof.
  revert st. induction trials1 as [|trial trials1 IH]; intros st.
  - cbn. by destruct (spec_run_all env scene mp_req trials2 st).
  - cbn [app spec_run_all].
    destruct (spec_trial env scene mp_req trial st) as [rundata st1].
    rewrite IH.
    destruct (spec_run_all env scene mp_req trials1 st1) as [records st2].
    by destruct (spec_run_all env scene mp_req trials2 st2).
Qed.

(** The repetitions of one algorithm are its trials one after the
    other: a trial is run whatever the trial before it returned. *)
Lemma run_repetitions_in_order (pl : Planner) mp_req (id : string) (n : nat)
    (w : World) mp_res first :
  let r := run_repetitions env scene pl (set_planner_id mp_req id) n (w, mp_res, first) in
  (r.1, r.2.1) = spec_run_all env scene mp_req (replicate n (pl, id)) (w, mp_res).
Proof.
  revert w mp_res first. induction n as [|n IH]; intros w mp_res first; [done|].
  cbn [run_repetitions replicate spec_run_all]. unfold run_trial, spec_trial.
  cbn [fst snd].
  destruct (solve pl w scene (set_planner_id mp_req id) mp_res) as [[solved mp_res'] w'].
  specialize (IH w' mp_res'
    (match first with None => if solved then Some mp_res' else None | Some r => Some r end)).
  cbv zeta in IH.
  destruct (run_repetitions env scene pl (set_planner_id mp_req id) n _) as [runs st2].
  destruct (spec_run_all env scene mp_req (replicate n (pl, id)) (w', mp_res'))
    as [records st2'].
  cbn [fst snd] in *. by injection IH as -> ->.
Qed.

Lemma run_algorithms_in_order (pl : Planner) mp_req0 mp_req (n : nat) (ids : list string)
    (w : World) mp_res first :
  (∀ id, set_planner_id mp_req id = set_planner_id mp_req0 id) →
  let r := run_algorithms env scene pl mp_req n ids (w, mp_res, first) in
  (mjoin r.1.1, r.2.1)
  = spec_run_all env scene mp_req0 (id ← ids; replicate n (pl, id)) (w, mp_res)
  ∧ ∀ id, set_planner_id r.1.2 id = set_planner_id mp_req0 id.
Proof.
  revert mp_req w mp_res first.
  induction ids as [|id ids IH]; intros mp_req w mp_res first Hbase; [done|].
  cbn [run_algorithms mbind list_bind]. rewrite spec_run_all_app.
  pose proof (run_repetitions_in_order pl mp_req0 id n w mp_res first) as Hr.
  cbv zeta in Hr. rewrite <- Hbase in Hr.
  destruct (run_repetitions env scene pl (set_planner_id mp_req id) n (w, mp_res, first))
    as [runs [[w1 mp_res1] first1]].
  cbn [fst snd] in Hr. rewrite <- Hr. cbn [fst snd].
  destruct (IH (set_planner_id mp_req id) w1 mp_res1 first1) as [Hd Hb]; [done|].
  cbv zeta in Hd, Hb.
  destruct (run_algorithms env scene pl (set_planner_id mp_req id) n ids
              (w1, mp_res1, first1)) as [[data mp_req2] st2].
  cbn [fst snd] in *. split; [|done].
  rewrite <- Hd. done.
Qed.

(** The loops of [computeBenchmark] run the trial matrix in order. *)
Lemma run_planners_in_order (cands : list Candidate) mp_req0 mp_req (w : World) mp_res :
  (∀ id, set_planner_id mp_req id = set_planner_id mp_req0 id) →
  let r := run_planners env scene cands mp_req w mp_res in
  (mjoin r.1.1, r.2) = spec_run_all env scene mp_req0 (spec_trial_matrix cands) (w, mp_res).
Proof.
  revert mp_req w mp_res.
  induction cands as [|c cands IH]; intros mp_req w mp_res Hbase; [done|].
  cbn [run_planners]. unfold spec_trial_matrix. cbn [mbind list_bind].
  rewrite spec_run_all_app.
  destruct (run_algorithms_in_order (cand_planner c) mp_req0 mp_req (cand_average_count c)
              (cand_planner_ids c) w mp_res None Hbase) as [Hd Hb].
  cbv zeta in Hd, Hb.
  destruct (run_algorithms env scene (cand_planner c) mp_req (cand_average_count c)
              (cand_planner_ids c) (w, mp_res, None)) as [[data mp_req1] [[w1 mp_res1] first]].
  cbn [fst snd] in Hd, Hb. rewrite <- Hd. cbn [fst snd].
  specialize (IH mp_req1 w1 mp_res1 Hb). cbv zeta in IH.
  destruct (run_planners env scene cands mp_req1 w1 mp_res1) as [[data' firsts] fin].
  cbn [fst snd] in *. unfold spec_trial_matrix in IH. rewrite <- IH.
  by rewrite join_app.
Qed.

Lemma algorithm_trials_length (pl : Planner) (n : nat) (ids : list string) :
  length (ids ≫= λ id, replicate n (pl, id)) = length ids * n.
Proof.
  induction ids as [|id ids IH]; [done|].
  cbn [mbind list_bind length]. rewrite length_app, length_replicate.
  change (list_bind _ _ ?f ids) with (ids ≫= f). rewrite IH. lia.
Qed.

Lemma spec_trial_matrix_length (cands : list Candidate) :
  length (spec_trial_matrix cands) = sum_list (group_repetitions cands).
Proof.
  unfold spec_trial_matrix, group_repetitions.
  induction cands as [|c cands IH]; [done|].
  cbn [mbind list_bind]. rewrite length_app, sum_list_with_app.
  change (sum_list_with id ?l) with (sum_list l) in *.
  change (list_bind _ _ ?f cands) with (cands ≫= f) in *.
  rewrite IH, sum_list_replicate, algorithm_trials_length. lia.
Qed.

End TrialsInOrder.

(** *** The sections of the report *)

Lemma string_app_assoc (a b c : string) : (a +:+ b) +:+ c = a +:+ (b +:+ c).
Proof.
  induction a as [|x a IH]; [done|].
  change (String x ((a +:+ b) +:+ c) = String x (a +:+ (b +:+ c))). by rewrite IH.
Qed.

(** A row as it is written is the specification's row. *)
Lemma row_line_spec_row (columns : list string) (rundata : gmap string string) :
  row_line columns rundata = spec_row columns rundata.
Proof.
  unfold row_line, row_fields, spec_row.
  induction columns as [|k columns IH]; [done|].
  cbn [map foldr fmap list_fmap String.concat]. rewrite IH.
  destruct columns as [|k' columns]; [done|].
  cbn [fmap list_fmap]. by rewrite string_app_assoc.
Qed.

Lemma row_lines_spec_rows (columns : list string) (runs : list (gmap string string)) :
  map (row_line columns) runs = spec_row columns <$> runs.
Proof.
  induction runs as [|rundata runs IH]; [done|].
  cbn [map fmap list_fmap]. by rewrite row_line_spec_row, IH.
Qed.

Lemma write_group_spec_section (label : string) (runs : list (gmap string string)) :
  write_group label runs = spec_section label (length runs) (properties runs) runs.
Proof. unfold write_group, spec_section. by rewrite row_lines_spec_rows. Qed.

Lemma list_bind_join_fmap {A B : Type} (f : A → list B) (l : list A) :
  l ≫= f = mjoin (f <$> l).
Proof. induction l as [|x l IH]; [done|]. cbn. by rewrite IH. Qed.

(** The report is its header of ten lines and then the sections of the
    groups, one after the other. *)
Lemma report_lines_sections (env : Environment) (scene : Scene) (req : Request)
    (startTime : WallTime) (duration : D) (cands : list Candidate)
    (data : list (list (gmap string string))) :
  report_lines env scene req startTime duration cands data =
  report_header env scene req startTime duration (count_totals cands).1
  ++ mjoin ((λ '(label, runs), write_group label runs) <$> zip (group_labels cands) data).
Proof. unfold report_lines. by rewrite list_bind_join_fmap. Qed.

Lemma group_labels_repetitions_length (cands : list Candidate) :
  length (group_labels cands) = length (group_repetitions cands).
Proof.
  unfold group_labels, group_repetitions. induction cands as [|c cands IH]; [done|].
  cbn [mbind list_bind]. by rewrite !length_app, IH, length_replicate, length_fmap.
Qed.

Lemma group_labels_count (cands : list Candidate) :
  length (group_labels cands) = sum_list ((length ∘ cand_planner_ids) <$> cands).
Proof.
  unfold group_labels. induction cands as [|c cands IH]; [done|].
  cbn [mbind list_bind fmap list_fmap sum_list sum_list_with].
  by rewrite length_app, length_fmap, IH.
Qed.

(** *** Properties of the service call *)

(** C1 (as amended). A trial whose [solve] fails stores its wall time and
    [solved] = 0 and no quality metric at all, and the trials go on: the
    data holds every group with all of its repetitions, and its records
    are those of the trials of the matrix run one after the other, each
    in the world the trial before it left, whatever the planners return. *)
Theorem C1_failed_trial_recorded_unsolved (env : Environment) (scene : Scene)
    (pl : Planner) mp_req (w : World) mp_res first
    (cands : list Candidate) mp_req0 (w0 : World) mp_res0 :
  (solve pl w scene mp_req mp_res).1.1 = false →
  (run_trial env scene pl mp_req (w, mp_res, first)).1 =
    <["solved BOOLEAN" := "0"]>
      (<["total_time REAL" :=
           d_lexical_cast
             (wall_elapsed (env_now env (solve pl w scene mp_req mp_res).2) (env_now env w))]>
         ∅)
  ∧ length <$> (run_planners env scene cands mp_req0 w0 mp_res0).1.1
    = group_repetitions cands
  ∧ (mjoin (run_planners env scene cands mp_req0 w0 mp_res0).1.1,
     (run_planners env scene cands mp_req0 w0 mp_res0).2)
    = spec_run_all env scene mp_req0 (spec_trial_matrix cands) (w0, mp_res0)
  ∧ length (spec_trial_matrix cands) = sum_list (group_repetitions cands).
Proof.
  intros Hfail. split; [|split; [apply run_planners_lengths|split]].
  - unfold run_trial.
    destruct (solve pl w scene mp_req mp_res) as [[solved mp_res'] w'].
    simpl in Hfail. subst solved. done.
  - by apply (run_planners_in_order env scene cands mp_req0 mp_req0).
  - apply spec_trial_matrix_length.
Qed.

(** C3 (as amended). The repetition count of a tested planner is at least
    1; it is the count the request gives at the planner's index, floored
    at 1, when the request names algorithm ids for the planner and gives
    a count at that index, and the default count, floored at 1, in every
    other case. *)
Theorem C3_repetition_count (req : Request) (name : string) (p : Planner) (c : Candidate) :
  select_planner req name p = Some c →
  1 ≤ cand_average_count c
  ∧ cand_average_count c =
    match find_requested name 0 (req_planner_interfaces req) with
    | Some (i, d) =>
        match pid_planner_ids d, req_average_count req !! i with
        | _ :: _, Some n => Nat.max 1 n
        | _, _ => Nat.max 1 (req_default_average_count req)
        end
    | None => Nat.max 1 (req_default_average_count req)
    end.
Proof.
  unfold select_planner. cbv zeta. intros Hsel.
  destruct (_ && _); [done|].
  destruct (canServiceRequest p _); [|done].
  destruct (find_requested name 0 (req_planner_interfaces req)) as [[i d]|];
    [destruct (pid_planner_ids d) as [|id ids];
       [|destruct (req_average_count req !! i) as [n|]]|];
    injection Hsel as <-; cbn [cand_average_count]; split; (lia || done).
Qed.

(** The runs of a group and the fields of its rows, before they are
    written. *)
Lemma group_rows_and_columns_data (env : Environment) (scene : Scene)
    (cands : list Candidate) mp_req (w : World) mp_res :
  let data := (run_planners env scene cands mp_req w mp_res).1.1 in
  length data = length (group_labels cands)
  ∧ Forall2
      (λ runs N,
         let keys : gset string := ⋃ (dom <$> runs) in
         (∀ label,
            write_group label runs =
            [label; "0 common properties"; pretty (size keys) +:+ " properties for each run"]
            ++ properties runs
            ++ [pretty N +:+ " runs"]
            ++ (row_line (properties runs) <$> runs)
            ++ ["."])
         ∧ length (row_line (properties runs) <$> runs) = N
         ∧ Forall
             (λ rundata,
                length (row_fields (properties runs) rundata) = size keys
                ∧ Forall2 (λ k field, field = default "" (rundata !! k))
                    (properties runs) (row_fields (properties runs) rundata))
             runs)
      data (group_repetitions cands).
Proof.
  intros data. split; [apply run_planners_groups|].
  pose proof (run_planners_lengths env scene cands mp_req w mp_res) as Hlen.
  fold data in Hlen. revert Hlen.
  generalize (group_repetitions cands) as reps. clear.
  induction data as [|runs data IH]; intros [|N reps] Hlen; try done.
  injection Hlen as HN Hlen. constructor; [|by apply IH].
  cbv zeta. split; [|split].
  - intros label. unfold write_group. by rewrite properties_length, HN.
  - by rewrite length_fmap.
  - apply Forall_forall. intros rundata _. split.
    + by rewrite row_fields_length, properties_length.
    + unfold row_fields. generalize (properties runs) as props.
      induction props as [|k props IHp]; by constructor.
Qed.

Lemma written_sections (labels : list string) (reps : list nat)
    (data : list (list (gmap string string))) :
  length labels = length reps → length <$> data = reps →
  Forall3
    (λ (group : string * nat) runs section,
       let keys : gset string := ⋃ (dom <$> runs) in
       length runs = group.2
       ∧ length (properties runs) = size keys
       ∧ (∀ k, k ∈ properties runs ↔ k ∈ keys)
       ∧ section = spec_section group.1 group.2 (properties runs) runs)
    (zip labels reps) data
    ((λ '(label, runs), write_group label runs) <$> zip labels data).
Proof.
  revert reps data. induction labels as [|label labels IH]; intros [|N reps] [|runs data];
    try done; [constructor|].
  intros [= Hl] [= HN Hd]. cbn [zip zip_with fmap list_fmap]. constructor; [|by apply IH].
  cbv zeta. cbn [fst snd]. split; [done|]. split; [apply properties_length|]. split.
  - intros k. unfold properties.
    by rewrite (merge_sort_Permutation _ _), elem_of_elements, propSeen_union.
  - by rewrite write_group_spec_section, HN.
Qed.

(** C4. In the report a group benchmarked with N repetitions has a
    section with exactly N run rows, and every row has one value column
    per property of the group, a value or nothing followed by ["; "]: as
    many columns as there are keys in the union of the key sets of the
    group's own runs. *)
Theorem C4_group_rows_and_columns (env : Environment) (registry : list (string * Planner))
    (scene : Scene) (files : gmap string (list string)) (w : World) mp_res0
    (req : Request) res :
  let o := computeBenchmark env registry scene files w mp_res0 req res in
  let cands := select_planners registry req in
  let data :=
    (run_planners env (env_setPlanningSceneMsg env scene (req_scene req)) cands
       (req_motion_plan_request req) w mp_res0).1.1 in
  cands ≠ [] →
  env_ofstream_opens env (res_filename (out_res o)) = true →
  ∃ header sections,
    out_files o !! res_filename (out_res o) = Some (header ++ mjoin sections)
    ∧ length header = 10
    ∧ length sections = length (group_labels cands)
    ∧ Forall3
        (λ (group : string * nat) runs section,
           let keys : gset string := ⋃ (dom <$> runs) in
           length runs = group.2
           ∧ length (properties runs) = size keys
           ∧ (∀ k, k ∈ properties runs ↔ k ∈ keys)
           ∧ section = spec_section group.1 group.2 (properties runs) runs)
        (zip (group_labels cands) (group_repetitions cands)) data sections.
Proof.
  intros o cands data Hne. subst o. rewrite computeBenchmark_run by done.
  cbn [out_res out_files res_filename]. intros ->.
  rewrite lookup_insert_eq, report_lines_sections. fold cands. fold data.
  eexists _, _. split; [reflexivity|]. split; [done|]. split.
  - rewrite length_fmap, length_zip. subst data. rewrite run_planners_groups. lia.
  - apply written_sections; [apply group_labels_repetitions_length|].
    apply run_planners_lengths.
Qed.

(** C5. The algorithm ids of a tested planner are all the ids it
    declares when the request names none for it; otherwise they are the
    requested names that are a declared id or [<groupName>[<declaredId>]]
    for one, in request order, and dropping the others does not fail the
    call. *)
Theorem C5_resolved_algorithm_ids (env : Environment) (registry : list (string * Planner))
    (scene : Scene) (files : gmap string (list string)) (w : World) mp_res0
    (req : Request) res (name : string) (p : Planner) (c : Candidate) :
  (name, p) ∈ registry →
  select_planner req name p = Some c →
  cand_planner_ids c =
    match find_requested name 0 (req_planner_interfaces req) with
    | Some (_, d) =>
        match pid_planner_ids d with
        | [] => getPlanningAlgorithms p
        | requested =>
            filter (spec_matches (group_name (req_motion_plan_request req))
                      (getPlanningAlgorithms p)) requested
        end
    | None => getPlanningAlgorithms p
    end
  ∧ out_return (computeBenchmark env registry scene files w mp_res0 req res) = true.
Proof.
  intros Hin Hsel. split.
  - revert Hsel. unfold select_planner. cbv zeta.
    destruct (_ && _); [done|].
    destruct (canServiceRequest p _); [|done].
    destruct (find_requested name 0 (req_planner_interfaces req)) as [[i d]|];
      [destruct (pid_planner_ids d) as [|id ids] eqn:Hd|];
      intros [= <-]; cbn [cand_planner_ids]; try done.
    apply (keep_known_filter _ _ (id :: ids)).
  - rewrite computeBenchmark_return. apply bool_decide_eq_true_2.
    intros Hnil. pose proof (select_planners_elem registry req name p c Hin Hsel) as Hc.
    rewrite Hnil in Hc. by apply not_elem_of_nil in Hc.
Qed.

(** C6 (as amended). The planner count line of a report states the
    number of (planner, algorithm) groups that were benchmarked, the sum
    of the resolved algorithm ids of the tested planners, and that many
    sections follow it in the file: after the ten lines of the header
    the file is the sections of the groups and nothing else, one for each
    label, in the order of the labels. *)
Theorem C6_planner_count_line (env : Environment) (registry : list (string * Planner))
    (scene : Scene) (files : gmap string (list string)) (w : World) mp_res0
    (req : Request) res :
  let o := computeBenchmark env registry scene files w mp_res0 req res in
  let cands := select_planners registry req in
  select_planners registry req ≠ [] →
  env_ofstream_opens env (res_filename (out_res o)) = true →
  ∃ lines,
    out_files o !! res_filename (out_res o) = Some lines
    ∧ lines !! 9 =
      Some (pretty (length (group_labels (select_planners registry req))) +:+ " planners")
    ∧ ∃ header sections,
        lines = header ++ mjoin sections
        ∧ length header = 10
        ∧ header !! 9 = Some (pretty (length sections) +:+ " planners")
        ∧ length sections = sum_list ((length ∘ cand_planner_ids) <$> cands)
        ∧ Forall2
            (λ label section,
               ∃ runs, section = spec_section label (length runs) (properties runs) runs)
            (group_labels cands) sections.
Proof.
  intros o cands Hne. subst o. rewrite computeBenchmark_run by done.
  cbn [out_res out_files res_filename]. intros ->.
  eexists. split; [apply lookup_insert_eq|]. split; [apply report_planners_line|].
  rewrite report_lines_sections. fold cands.
  pose proof (run_planners_groups env (env_setPlanningSceneMsg env scene (req_scene req))
                cands (req_motion_plan_request req) w mp_res0) as Hlen.
  revert Hlen.
  generalize (run_planners env (env_setPlanningSceneMsg env scene (req_scene req)) cands
                (req_motion_plan_request req) w mp_res0).1.1 as data.
  intros data Hlen.
  assert (Hsections :
    length ((λ '(label, runs), write_group label runs) <$> zip (group_labels cands) data)
    = length (group_labels cands)) by (rewrite length_fmap, length_zip; lia).
  eexists _, _. split; [reflexivity|]. split; [done|]. split; [|split].
  - rewrite Hsections, <- total_n_planners_groups. reflexivity.
  - by rewrite Hsections, group_labels_count.
  - revert Hlen. clear. generalize (group_labels cands) as labels. intros labels.
    revert data. induction labels as [|label labels IH]; intros [|runs data] Hlen;
      try done; try (by constructor).
    cbn [zip zip_with fmap list_fmap]. constructor; [|apply IH; by injection Hlen].
    exists runs. apply write_group_spec_section.
Qed.

(** C8. The call returns failure exactly when no planner is left to
    test; it then writes no file, runs no trial and leaves the scene as it
    was. *)
Theorem C8_empty_candidate_set (env : Environment) (registry : list (string * Planner))
    (scene : Scene) (files : gmap string (list string)) (w : World) mp_res0
    (req : Request) res :
  let o := computeBenchmark env registry scene files w mp_res0 req res in
  (out_return o = false ↔ select_planners registry req = [])
  ∧ match select_planners registry req with
    | [] => out_files o = files ∧ out_world o = w ∧ out_scene o = scene
            ∧ res_error_code (out_res o) = res_error_code res
    | _ :: _ => out_return o = true
    end.
Proof.
  intros o. subst o. split.
  - rewrite computeBenchmark_return.
    destruct (decide (select_planners registry req = [])) as [Hc|Hc].
    + by rewrite bool_decide_eq_false_2 by (intros H; by apply H).
    + by rewrite bool_decide_eq_true_2.
  - destruct (select_planners registry req) as [|c cands] eqn:Hc.
    + unfold computeBenchmark. by rewrite Hc.
    + rewrite computeBenchmark_return, Hc. done.
Qed.

(** C9 (as amended). When the report file cannot be opened for writing,
    nothing is written and the call reports success all the same. *)
Theorem C9_write_failure_unnoticed (env : Environment) (registry : list (string * Planner))
    (scene : Scene) (files : gmap string (list string)) (w : World) mp_res0
    (req : Request) res :
  let o := computeBenchmark env registry scene files w mp_res0 req res in
  select_planners registry req ≠ [] →
  env_ofstream_opens env (res_filename (out_res o)) = false →
  out_files o = files
  ∧ out_return o = true
  ∧ res_error_code (out_res o) = SUCCESS.
Proof.
  intros o Hne. subst o. rewrite computeBenchmark_run by done.
  cbn [out_res out_files out_return res_filename res_error_code]. by intros ->.
Qed.

End ServiceProperties.

(** ** Binary64 *)

(** *** The cast of a size

    [PrimFloat.of_uint63] rounds a positive integer to a float that is
    not zero: the shifts of the rounding never take all the digits of the
    mantissa. *)
Section SizeCast.
Local Open Scope Z_scope.

Lemma shr_1_pos mrs q :
  shr_m mrs = Zpos q → (1 < digits2_pos q)%positive →
  ∃ q', shr_m (shr_1 mrs) = Zpos q' ∧ (digits2_pos q = Pos.succ (digits2_pos q'))%positive.
Proof.
  destruct mrs as [m r s]. simpl. intros -> Hd.
  destruct q as [q|q|]; simpl in *; [by eexists|by eexists|lia].
Qed.

Lemma iter_shr_1_pos p : ∀ mrs q,
  shr_m mrs = Zpos q → (p < digits2_pos q)%positive →
  ∃ q', shr_m (SpecFloat.iter_pos shr_1 p mrs) = Zpos q'
        ∧ (digits2_pos q = p + digits2_pos q')%positive.
Proof.
  induction p as [p IH|p IH|]; intros mrs q Hm Hd; simpl.
  - destruct (shr_1_pos mrs q Hm ltac:(lia)) as (q1 & H1 & D1).
    destruct (IH _ q1 H1 ltac:(lia)) as (q2 & H2 & D2).
    destruct (IH _ q2 H2 ltac:(lia)) as (q3 & H3 & D3).
    exists q3. split; [done|lia].
  - destruct (IH _ q Hm ltac:(lia)) as (q2 & H2 & D2).
    destruct (IH _ q2 H2 ltac:(lia)) as (q3 & H3 & D3).
    exists q3. split; [done|lia].
  - destruct (shr_1_pos mrs q Hm Hd) as (q1 & H1 & D1).
    exists q1. split; [done|lia].
Qed.

Lemma shr_fexp_pos q ex lx :
  SpecFloat.emin prec emax ≤ ex →
  ∃ q', shr_m (fst (shr_fexp prec emax (Zpos q) ex lx)) = Zpos q'
        ∧ SpecFloat.emin prec emax ≤ snd (shr_fexp prec emax (Zpos q) ex lx).
Proof.
  intros He. unfold shr_fexp, shr.
  assert (Hrec : shr_m (shr_record_of_loc (Z.pos q) lx) = Zpos q)
    by (by destruct lx as [|[]]).
  destruct (SpecFloat.fexp prec emax (Zdigits2 (Z.pos q) + ex) - ex) as [|p|p] eqn:Hn; cbn [fst snd].
  - eauto.
  - destruct (iter_shr_1_pos p _ q Hrec) as (q' & H' & _).
    { unfold SpecFloat.fexp, SpecFloat.emin, prec, emax in *. cbn [Zdigits2] in Hn. lia. }
    exists q'. split; [done|lia].
  - eauto.
Qed.

Lemma binary_round_aux_not_zero sx q ex lx :
  SpecFloat.emin prec emax ≤ ex →
  ∃ s, (∃ m e, binary_round_aux prec emax sx (Zpos q) ex lx = S754_finite s m e)
       ∨ binary_round_aux prec emax sx (Zpos q) ex lx = S754_infinity s.
Proof.
  intros He. unfold binary_round_aux.
  destruct (shr_fexp_pos q ex lx He) as (q1 & H1 & He1).
  destruct (shr_fexp prec emax (Z.pos q) ex lx) as [mrs' e']. cbn [fst snd] in *.
  assert (∃ q2, round_nearest_even (shr_m mrs') (loc_of_shr_record mrs') = Zpos q2)
    as [q2 ->].
  { rewrite H1. unfold round_nearest_even.
    destruct (loc_of_shr_record mrs') as [|[]]; try destruct (Z.even _); by eexists. }
  destruct (shr_fexp_pos q2 e' loc_Exact He1) as (q3 & H3 & _).
  destruct (shr_fexp prec emax (Z.pos q2) e' loc_Exact) as [mrs'' e'']. cbn [fst] in H3.
  rewrite H3. exists sx. destruct (e'' <=? emax - prec); [left; by do 2 eexists|by right].
Qed.

Lemma binary_normalize_not_zero q :
  ∃ s, (∃ m e, binary_normalize prec emax (Zpos q) 0 false = S754_finite s m e)
       ∨ binary_normalize prec emax (Zpos q) 0 false = S754_infinity s.
Proof.
  unfold binary_normalize, binary_round.
  destruct (shl_align q 0 _) as [mz ez] eqn:Hs.
  apply binary_round_aux_not_zero.
  unfold shl_align in Hs. unfold SpecFloat.fexp in Hs.
  destruct (Z.max _ _ - 0) eqn:Hd; injection Hs as <- <-; unfold SpecFloat.emin, prec, emax in *; lia.
Qed.

(** The cast of a size below 2^63 to [double] is zero only for the size 0. *)
Lemma of_uint63_not_zero (n : Z) :
  0 < n < 2 ^ 63 → PrimFloat.eqb (PrimFloat.of_uint63 (Uint63.of_Z n)) 0 = false.
Proof.
  intros Hn. rewrite FloatAxioms.eqb_spec, of_uint63_spec, Uint63.of_Z_spec.
  rewrite Z.mod_small by (change Uint63.wB with (2 ^ 63); lia).
  destruct n as [|q|q]; [lia| |lia].
  destruct (binary_normalize_not_zero q) as [s [(m & e & ->)| ->]]; by destruct s.
Qed.

End SizeCast.

Section Binary64.
Variables (acos : float → float) (lexical_cast ostream : float → string).
Context {rt : RosTime float}.
Context {KinematicState RobotState RobotTrajectory : Type}.
Context {RequestBody SceneMsg World : Type}.

Lemma leb_false_ltb_false (x y : float) :
  PrimFloat.leb x y = false → PrimFloat.ltb x y = false.
Proof.
  rewrite leb_spec, ltb_spec. unfold SFleb, SFltb.
  by destruct (SFcompare (Prim2SF x) (Prim2SF y)) as [[]|].
Qed.

(** The floor leaves nothing below zero (and leaves a NaN as it is). *)
Lemma floor_at_zero_not_negative (x : float) :
  PrimFloat.ltb (floor_at_zero (dops := ieee_double acos lexical_cast ostream) x) 0 = false.
Proof.
  unfold floor_at_zero. cbn [d_leb d_zero ieee_double].
  destruct (PrimFloat.leb x 0) eqn:Hx; [done|by apply leb_false_ltb_false].
Qed.

(** C7. The residual a trial stores is its wall time with the solve
    times of the segments taken off, floored at 0, and it is never
    negative; a trial that is not solved stores none. *)
Theorem C7_residual_never_negative
    (env : @Environment float rt KinematicState RobotState RobotTrajectory
             RequestBody SceneMsg World)
    (scene : PlanningScene) (pl : Planner) (mp_req : MotionPlanRequest) (w : World)
    (mp_res : MotionPlanDetailedResponse)
    (first : option MotionPlanDetailedResponse) :
  let binary64 := ieee_double acos lexical_cast ostream in
  let r := solve pl w scene mp_req mp_res in
  let total_time := wall_elapsed (env_now env r.2) (env_now env w) in
  let residual := spec_residual (dops := binary64) total_time (segments r.1.2) in
  (run_trial (dops := binary64) env scene pl mp_req (w, mp_res, first)).1
    !! "process_time REAL"
    = (if r.1.1 then Some (lexical_cast residual) else None)
  ∧ PrimFloat.ltb residual 0 = false.
Proof.
  intros binary64 r total_time residual. split.
  - subst residual total_time r. unfold run_trial.
    destruct (solve pl w scene mp_req mp_res) as [[solved mp_res'] w'].
    cbn [fst snd]. rewrite collectMetrics_process_time.
    by destruct solved.
  - apply floor_at_zero_not_negative.
Qed.

(** C10. The clearance stored for a segment is the accumulated
    distance-to-collision of its waypoints divided by the waypoint count,
    with no test of the count: for a segment with waypoints the divisor
    is not zero, for a segment without waypoints the clearance is the
    quotient 0/0, a NaN. *)
Theorem C10_clearance_unguarded_quotient
    (scene : @PlanningScene float KinematicState RobotState RobotTrajectory)
    (start : RobotState) (rundata : gmap string string) (process_time : float)
    (seg : Segment) :
  let binary64 := ieee_double acos lexical_cast ostream in
  let p := scene_convert scene start (seg_trajectory seg) in
  (Z.of_nat (length p) < 2 ^ 63)%Z →
  (collect_segment (dops := binary64) scene start (rundata, process_time) seg).1
      !! (("path_" +:+ seg_description seg) +:+ "_clearance REAL")
    = Some (lexical_cast (path_clearance (dops := binary64) scene p))
  ∧ path_clearance (dops := binary64) scene p
    = (spec_clearance_sum (dops := binary64) scene p
       / d_of_size (DoubleOps := binary64) (length p))%float
  ∧ match p with
    | [] =>
        path_clearance (dops := binary64) scene p = (0 / 0)%float
        ∧ PrimFloat.is_nan (path_clearance (dops := binary64) scene p) = true
    | _ :: _ =>
        PrimFloat.eqb (d_of_size (DoubleOps := binary64) (length p)) 0 = false
    end.
Proof.
  intros binary64 p Hsize. split; [|split].
  - apply (collect_segment_lookup (dops := binary64) scene start rundata process_time seg).
  - apply (path_clearance_quotient (dops := binary64)).
  - destruct p as [|s p']; [done|].
    apply of_uint63_not_zero. cbn [length] in *. lia.
Qed.

End Binary64.

(** * Further properties *)

(** ** Property names *)

Lemma list_ascii_of_string_app (a b : string) :
  String.list_ascii_of_string (a +:+ b) = String.list_ascii_of_string a ++ String.list_ascii_of_string b.
Proof. induction a as [|c a IH]; simpl; [done|]. by rewrite IH. Qed.

(** A suffix starts with the only underscore it has. *)
Lemma segment_suffix_underscore (suffix : string) :
  suffix ∈ segment_suffixes →
  ∃ tail, suffix = String "_" tail ∧ "_"%char ∉ String.list_ascii_of_string tail.
Proof.
  unfold segment_suffixes. intros H.
  repeat (apply elem_of_cons in H as [->|H]); [..|by apply elem_of_nil in H];
    eexists; (split; [reflexivity|]); simpl;
    intros Hin; repeat (apply elem_of_cons in Hin as [[=]|Hin]); by apply elem_of_nil in Hin.
Qed.

Lemma segment_suffix_not_tail (suffix suffix' d : string) (c : Ascii.ascii) :
  suffix ∈ segment_suffixes → suffix' ∈ segment_suffixes →
  suffix ≠ String c (d +:+ suffix').
Proof.
  intros (tail & -> & Hno)%segment_suffix_underscore
         (tail' & -> & _)%segment_suffix_underscore [= _ ->].
  apply Hno. rewrite list_ascii_of_string_app. apply elem_of_app. right. simpl. left.
Qed.

(** A description and a suffix make one name only. *)
Lemma description_suffix_inj (d1 d2 suffix1 suffix2 : string) :
  suffix1 ∈ segment_suffixes → suffix2 ∈ segment_suffixes →
  d1 +:+ suffix1 = d2 +:+ suffix2 → d1 = d2 ∧ suffix1 = suffix2.
Proof.
  intros H1 H2. revert d2.
  induction d1 as [|c1 d1 IH]; intros [|c2 d2]; simpl.
  - done.
  - intros H. by destruct (segment_suffix_not_tail suffix1 suffix2 d2 c2).
  - intros H. by destruct (segment_suffix_not_tail suffix2 suffix1 d1 c1).
  - intros [= -> H]. by destruct (IH _ H) as [-> ->].
Qed.

(** X1. Two properties of segments have the same name only when the
    segments have the same description and the properties the same
    suffix, and no property of a segment has the name of one of the three
    properties of the trial. *)
Theorem X1_property_names_distinct (d1 d2 suffix1 suffix2 : string) :
  suffix1 ∈ segment_suffixes → suffix2 ∈ segment_suffixes →
  let key1 := ("path_" +:+ d1) +:+ suffix1 in
  let key2 := ("path_" +:+ d2) +:+ suffix2 in
  (key1 = key2 ↔ d1 = d2 ∧ suffix1 = suffix2)
  ∧ key1 ∉ ["total_time REAL"; "solved BOOLEAN"; "process_time REAL"].
Proof.
  intros H1 H2 key1 key2. split; [split|].
  - subst key1 key2. simpl. intros [= H]. by apply description_suffix_inj.
  - by intros [-> ->].
  - subst key1. simpl. intros Hin.
    repeat (apply elem_of_cons in Hin as [[=]|Hin]). by apply elem_of_nil in Hin.
Qed.

(** ** More on the metrics *)

Section MoreMetrics.
Context {D : Type} {dops : DoubleOps D} {rt : RosTime D}.
Context {KinematicState RobotState RobotTrajectory : Type}.
Variable scene : @PlanningScene D KinematicState RobotState RobotTrajectory.

Local Open Scope double_scope.

Lemma clearance_loop_correct (p : list KinematicState) (correct : bool) (acc : D) :
  (clearance_loop scene correct acc p).1 =
  correct && forallb (λ s, negb (scene_collision scene s)) p.
Proof.
  revert correct acc. induction p as [|s p IH]; intros correct acc; simpl.
  - by rewrite andb_true_r.
  - rewrite IH. by destruct (scene_collision scene s), correct.
Qed.

(** X2. A path is stored as correct exactly when none of its waypoints
    is in collision; a path without waypoints is correct. *)
Theorem X2_path_correct_iff (p : list KinematicState) :
  path_correct scene p = true ↔ ∀ s, s ∈ p → scene_collision scene s = false.
Proof.
  unfold path_correct. rewrite clearance_loop_correct. simpl.
  rewrite forallb_forall. split.
  - intros H s Hs%list_elem_of_In. apply negb_true_iff. by apply H.
  - intros H s Hs%list_elem_of_In. apply negb_true_iff. by apply H.
Qed.

Lemma length_loop_snoc (rest : list KinematicState) (L : D) (prev s s' : KinematicState) :
  length_loop scene L prev (rest ++ [s; s']) =
  length_loop scene L prev (rest ++ [s]) + scene_distance scene s s'.
Proof.
  revert L prev. induction rest as [|x rest IH]; intros L prev; [done|].
  simpl. apply IH.
Qed.

(** X3. The length of a path of one waypoint is 0, and a waypoint added
    at the end adds its distance to the waypoint before it: the length is
    the distances of consecutive waypoints added up from the start. *)
Theorem X3_path_length_consecutive (q : list KinematicState) (s s' : KinematicState) :
  path_length scene [s] = d_zero
  ∧ path_length scene (q ++ [s; s']) = path_length scene (q ++ [s]) + scene_distance scene s s'.
Proof.
  split; [done|]. destruct q as [|x q]; [done|].
  simpl. apply length_loop_snoc.
Qed.

(** *** The properties of a trial *)

Lemma collect_segment_other (start : RobotState) (rundata : gmap string string)
    (process_time : D) (seg : Segment) (key : string) :
  key ∉ segment_keys (seg_description seg) →
  (collect_segment scene start (rundata, process_time) seg).1 !! key = rundata !! key.
Proof.
  unfold segment_keys, segment_suffixes. cbn [fmap list_fmap]. intros Hkey.
  unfold collect_segment. cbv zeta. cbn [fst].
  rewrite !lookup_insert_ne; [done|..]; intros <-; apply Hkey; repeat constructor.
Qed.

Lemma collect_segments_other (start : RobotState) (segs : list Segment)
    (rundata : gmap string string) (process_time : D) (key : string) :
  (∀ seg, seg ∈ segs → key ∉ segment_keys (seg_description seg)) →
  (fold_left (collect_segment scene start) segs (rundata, process_time)).1 !! key
  = rundata !! key.
Proof.
  revert rundata process_time.
  induction segs as [|seg segs IH]; intros rundata process_time Hkey; [done|].
  cbn [fold_left].
  destruct (collect_segment scene start (rundata, process_time) seg) as [rundata' t'] eqn:E.
  rewrite IH by (intros seg' Hin; apply Hkey; by right).
  change rundata' with (rundata', t').1. rewrite <- E.
  apply collect_segment_other, Hkey. by left.
Qed.

Lemma trial_key_not_segment_key (key d : string) :
  key ∈ ["total_time REAL"; "solved BOOLEAN"; "process_time REAL"] →
  key ∉ segment_keys d.
Proof.
  unfold segment_keys, segment_suffixes. cbn [fmap list_fmap]. intros Hk Hin.
  repeat (apply elem_of_cons in Hk as [->|Hk]); [..|by apply elem_of_nil in Hk];
    repeat (apply elem_of_cons in Hin as [[=]|Hin]); by apply elem_of_nil in Hin.
Qed.

Lemma collectMetrics_trial_keys (rundata : gmap string string)
    (mp_res : MotionPlanDetailedResponse) (solved : bool) (total_time : D) :
  let rundata' := collectMetrics scene rundata mp_res solved total_time in
  rundata' !! "total_time REAL" = Some (d_lexical_cast total_time)
  ∧ rundata' !! "solved BOOLEAN" = Some (bool_lexical_cast solved).
Proof.
  intros rundata'. subst rundata'. unfold collectMetrics. cbv zeta.
  destruct solved; [|by rewrite lookup_insert_ne, !lookup_insert_eq].
  destruct (fold_left _ _ _) as [rundata1 process_time] eqn:E.
  rewrite !lookup_insert_ne by done.
  change rundata1 with (rundata1, process_time).1. rewrite <- E.
  rewrite !collect_segments_other
    by (intros seg _; apply trial_key_not_segment_key; repeat constructor).
  by rewrite lookup_insert_ne, !lookup_insert_eq.
Qed.

(** X4. Every record of a trial tells the wall time of the trial and
    whether it was solved, whatever the descriptions of the segments
    are: no property of a segment overwrites the two. *)
Theorem X4_trial_properties_kept (rundata : gmap string string)
    (mp_res : MotionPlanDetailedResponse) (solved : bool) (total_time : D) :
  let rundata' := collectMetrics scene rundata mp_res solved total_time in
  rundata' !! "total_time REAL" = Some (d_lexical_cast total_time)
  ∧ rundata' !! "solved BOOLEAN" = Some (bool_lexical_cast solved).
Proof. apply collectMetrics_trial_keys. Qed.

Lemma segment_key_description (d d' suffix : string) :
  suffix ∈ segment_suffixes →
  ("path_" +:+ d) +:+ suffix ∈ segment_keys d' → d = d'.
Proof.
  intros Hs (suffix' & Heq & Hs')%list_elem_of_fmap.
  simpl in Heq. injection Heq as Heq.
  by destruct (description_suffix_inj _ _ _ _ Hs Hs' Heq).
Qed.

(** X5. When segments share a description they share their five
    properties and the later segment overwrites the earlier: the record
    holds, under a description, the metrics of the last segment that has
    it. *)
Theorem X5_last_segment_of_a_description (rundata : gmap string string)
    (start : RobotState) (segs1 segs2 : list Segment) (seg : Segment) (total_time : D) :
  seg_description seg ∉ seg_description <$> segs2 →
  let mp_res := {| trajectory_start := start; segments := segs1 ++ seg :: segs2 |} in
  let rundata' := collectMetrics scene rundata mp_res true total_time in
  let p := scene_convert scene start (seg_trajectory seg) in
  let name := "path_" +:+ seg_description seg in
  rundata' !! (name +:+ "_correct BOOLEAN") = Some (bool_lexical_cast (path_correct scene p))
  ∧ rundata' !! (name +:+ "_length REAL") = Some (d_lexical_cast (path_length scene p))
  ∧ rundata' !! (name +:+ "_clearance REAL") = Some (d_lexical_cast (path_clearance scene p))
  ∧ rundata' !! (name +:+ "_smoothness REAL") = Some (d_lexical_cast (path_smoothness scene p))
  ∧ rundata' !! (name +:+ "_time REAL") = Some (duration_lexical_cast (seg_processing_time seg)).
Proof.
  intros Hlast mp_res rundata' p name.
  assert (Hkeep : ∀ suffix, suffix ∈ segment_suffixes →
            rundata' !! (name +:+ suffix) =
            (collect_segment scene start
               (fold_left (collect_segment scene start) segs1
                  (<["solved BOOLEAN":=bool_lexical_cast true]>
                     (<["total_time REAL":=d_lexical_cast total_time]> rundata), total_time))
               seg).1 !! (name +:+ suffix)).
  { intros suffix Hs. subst rundata' mp_res. unfold collectMetrics. cbv zeta.
    cbn [segments trajectory_start]. rewrite fold_left_app. cbn [fold_left].
    destruct (fold_left _ segs2 _) as [rundata2 t2] eqn:E.
    rewrite lookup_insert_ne
      by (subst name; unfold segment_suffixes in Hs;
          repeat (apply elem_of_cons in Hs as [->|Hs]); [..|by apply elem_of_nil in Hs]; done).
    change rundata2 with (rundata2, t2).1. rewrite <- E.
    destruct (collect_segment scene start _ seg) as [rundata1 t1].
    apply collect_segments_other. intros seg' Hin Hkey.
    apply Hlast. apply list_elem_of_fmap. exists seg'. split; [|done].
    by apply (segment_key_description _ _ suffix). }
  rewrite !Hkeep by (unfold segment_suffixes; repeat constructor).
  destruct (fold_left _ segs1 _) as [rundata1 t1].
  apply (collect_segment_lookup scene start rundata1 t1 seg).
Qed.

Lemma collect_segment_dom (start : RobotState) (rundata : gmap string string)
    (process_time : D) (seg : Segment) :
  dom (collect_segment scene start (rundata, process_time) seg).1
  = dom rundata ∪ list_to_set (segment_keys (seg_description seg)).
Proof.
  unfold collect_segment. cbv zeta. cbn [fst]. rewrite !dom_insert_L.
  unfold segment_keys, segment_suffixes. cbn [fmap list_fmap list_to_set].
  apply set_eq. intros k. rewrite !elem_of_union, !elem_of_singleton, elem_of_empty.
  tauto.
Qed.

Lemma collect_segments_dom (start : RobotState) (segs : list Segment)
    (rundata : gmap string string) (process_time : D) :
  dom (fold_left (collect_segment scene start) segs (rundata, process_time)).1
  = dom rundata ∪ list_to_set (segs ≫= λ seg, segment_keys (seg_description seg)).
Proof.
  revert rundata process_time.
  induction segs as [|seg segs IH]; intros rundata process_time.
  - simpl. by rewrite (right_id_L ∅ (∪)).
  - cbn [fold_left mbind list_bind].
    destruct (collect_segment scene start (rundata, process_time) seg) as [rundata' t'] eqn:E.
    rewrite IH. change rundata' with (rundata', t').1. rewrite <- E.
    rewrite collect_segment_dom, list_to_set_app_L. by rewrite (assoc_L (∪)).
Qed.

(** X6. The property names of a record: the wall time and the flag,
    and for a solved trial the residual time and the five properties of
    every segment, under the segment's description. *)
Theorem X6_trial_property_names (mp_res : MotionPlanDetailedResponse) (solved : bool)
    (total_time : D) :
  dom (collectMetrics scene ∅ mp_res solved total_time) =
  list_to_set
    (if solved then
       ["total_time REAL"; "solved BOOLEAN"; "process_time REAL"]
       ++ (segments mp_res ≫= λ seg, segment_keys (seg_description seg))
     else ["total_time REAL"; "solved BOOLEAN"]).
Proof.
  unfold collectMetrics. cbv zeta. destruct solved.
  - destruct (fold_left _ _ _) as [rundata1 process_time] eqn:E.
    rewrite dom_insert_L. change rundata1 with (rundata1, process_time).1. rewrite <- E.
    rewrite collect_segments_dom, !dom_insert_L, dom_empty_L.
    cbn [app list_to_set]. generalize (segments mp_res ≫= λ seg, segment_keys (seg_description seg)).
    intros keys. apply set_eq. intros k.
    rewrite !elem_of_union, !elem_of_singleton, elem_of_empty. tauto.
  - rewrite !dom_insert_L, dom_empty_L. cbn [list_to_set].
    apply set_eq. intros k. rewrite !elem_of_union, !elem_of_singleton, elem_of_empty. tauto.
Qed.

End MoreMetrics.

(** ** More on the selection of planners *)

Section MoreSelection.
Context {D : Type} {rt : RosTime D}.
Context {KinematicState RobotState RobotTrajectory : Type}.
Context {RequestBody SceneMsg World : Type}.

Local Abbreviation Planner :=
  (@Planner D rt KinematicState RobotState RobotTrajectory RequestBody World).
Local Abbreviation Candidate :=
  (@Candidate D rt KinematicState RobotState RobotTrajectory RequestBody World).
Local Abbreviation Request := (@Request D rt RequestBody SceneMsg).
Local Abbreviation MotionPlanRequest := (@MotionPlanRequest D rt RequestBody).

Lemma find_requested_None (name : string) (start : nat)
    (l : list PlannerInterfaceDescription) :
  find_requested name start l = None ↔ name ∉ pid_name <$> l.
Proof.
  revert start. induction l as [|d l IH]; intros start.
  - split; [intros _ H; by apply elem_of_nil in H|done].
  - cbn [find_requested]. rewrite fmap_cons, not_elem_of_cons.
    destruct (decide (pid_name d = name)) as [Hd|Hd].
    + rewrite bool_decide_eq_true_2 by done. split; [done|]. by intros [? _].
    + rewrite bool_decide_eq_false_2 by done. rewrite IH. split; [|by intros [_ ?]].
      intros H. split; [congruence|done].
Qed.

Lemma find_requested_app (name : string) (start : nat)
    (l l1 : list PlannerInterfaceDescription) (d : PlannerInterfaceDescription) :
  pid_name d = name →
  ∃ i d', find_requested name start (l ++ d :: l1) = Some (i, d')
          ∧ ∀ l2, find_requested name start (l ++ d :: l2) = Some (i, d').
Proof.
  intros Hd. revert start. induction l as [|e l IH]; intros start.
  - exists start, d. cbn [app find_requested]. by rewrite bool_decide_eq_true_2.
  - cbn [app find_requested]. destruct (bool_decide (pid_name e = name)).
    + by exists start, e.
    + apply IH.
Qed.

Lemma select_planner_same (name : string) (p : Planner) (c : Candidate) (req : Request) :
  select_planner req name p = Some c → cand_name c = name ∧ cand_planner c = p.
Proof.
  unfold select_planner. cbv zeta.
  destruct (_ && _); [done|]. destruct (canServiceRequest p _); [|done].
  destruct (find_requested _ _ _) as [[i d]|]; [destruct (pid_planner_ids d)|];
    by intros [= <-].
Qed.

Lemma select_planner_is_Some (req : Request) (name : string) (p : Planner) :
  is_Some (select_planner req name p) ↔
  (req_planner_interfaces req = [] ∨ name ∈ pid_name <$> req_planner_interfaces req)
  ∧ canServiceRequest p (req_motion_plan_request req) = true.
Proof.
  unfold select_planner. cbv zeta.
  destruct (decide (req_planner_interfaces req = [])) as [Hl|Hl].
  - rewrite Hl. cbn [find_requested]. rewrite bool_decide_eq_false_2 by (by intros ?).
    cbn [andb]. destruct (canServiceRequest p _).
    + split; [by intros _; split; [left|]|by eexists].
    + split; [by intros [? [=]]|by intros [_ [=]]].
  - rewrite (bool_decide_eq_true_2 _ Hl). cbn [andb].
    destruct (find_requested name 0 (req_planner_interfaces req)) as [[i d]|] eqn:Hf.
    + assert (name ∈ pid_name <$> req_planner_interfaces req) as Hin.
      { destruct (decide (name ∈ pid_name <$> req_planner_interfaces req)); [done|].
        by rewrite (proj2 (find_requested_None name 0 _)) in Hf. }
      rewrite bool_decide_eq_false_2 by done.
      destruct (canServiceRequest p _).
      * split; [by intros _; split; [right|]|].
        intros _. destruct (pid_planner_ids d); by eexists.
      * split; [by intros [? [=]]|by intros [_ [=]]].
    + rewrite bool_decide_eq_true_2 by done.
      apply find_requested_None in Hf.
      split; [by intros [? [=]]|]. intros [[?|?] _]; done.
Qed.

(** X7. A registered planner is tested exactly when it can service
    the request and the request names no planner at all or names this
    one; it is tested under its own name. *)
Theorem X7_tested_planners (req : Request) (name : string) (p : Planner) :
  (is_Some (select_planner req name p) ↔
   (req_planner_interfaces req = [] ∨ name ∈ pid_name <$> req_planner_interfaces req)
   ∧ canServiceRequest p (req_motion_plan_request req) = true)
  ∧ ∀ c, select_planner req name p = Some c → cand_name c = name ∧ cand_planner c = p.
Proof.
  split; [apply select_planner_is_Some|]. intros c. apply select_planner_same.
Qed.

(** X8. When the request names a planner more than once, the first of
    the entries counts: what comes after it in the request changes neither
    the algorithms nor the repetitions of the planner. *)
Theorem X8_first_entry_counts (name : string) (p : Planner)
    (mp_req : MotionPlanRequest) (default : nat) (counts : list nat)
    (filename1 filename2 : string) (scene1 scene2 : SceneMsg)
    (l l1 l2 : list PlannerInterfaceDescription) (d : PlannerInterfaceDescription) :
  pid_name d = name →
  select_planner (Build_Request mp_req (l ++ d :: l1) default counts filename1 scene1) name p
  = select_planner (Build_Request mp_req (l ++ d :: l2) default counts filename2 scene2) name p.
Proof.
  intros Hd. unfold select_planner. cbv zeta.
  cbn [req_planner_interfaces req_motion_plan_request req_default_average_count
       req_average_count].
  destruct (find_requested_app name 0 l l1 d Hd) as (i & d' & H1 & H2).
  rewrite H1, (H2 l2).
  rewrite !(bool_decide_eq_false_2 (Some (i, d') = None)) by done.
  by rewrite !andb_false_r.
Qed.

End MoreSelection.


(** ** The order of strings *)

Lemma string_ltb_lt (a b : string) : String.ltb a b = true ↔ String_as_OT.lt a b.
Proof.
  rewrite <- String_as_OT.cmp_lt. unfold String.ltb, String_as_OT.cmp.
  by destruct (String.compare a b).
Qed.

Lemma string_ltb_trans (a b c : string) :
  String.ltb a b = true → String.ltb b c = true → String.ltb a c = true.
Proof. rewrite !string_ltb_lt. apply String_as_OT.lt_trans. Qed.

Lemma string_compare_refl (a : string) : String.compare a a = Eq.
Proof. apply (String_as_OT.cmp_eq a a). done. Qed.

Lemma string_ltb_irrefl (a : string) : String.ltb a a = false.
Proof. unfold String.ltb. by rewrite string_compare_refl. Qed.

Lemma string_ltb_trichotomy (a b : string) :
  String.ltb a b = false → a ≠ b → String.ltb b a = true.
Proof.
  unfold String.ltb. rewrite (String.compare_antisym b a).
  destruct (String.compare a b) eqn:E; [|done|done].
  intros _ Hne. by apply String.compare_eq_iff in E.
Qed.

Lemma string_leb_ltb (a b : string) :
  String.leb a b = true ↔ String.ltb a b = true ∨ a = b.
Proof.
  unfold String.leb, String.ltb. destruct (String.compare a b) eqn:E.
  - apply String.compare_eq_iff in E. split; [by right|done].
  - split; [by left|done].
  - split; [done|]. intros [?| ->]; [done|].
    by rewrite string_compare_refl in E.
Qed.

Lemma string_le_trans : Transitive string_le.
Proof.
  intros a b c. unfold string_le. rewrite !string_leb_ltb.
  intros [Hab| ->] [Hbc| ->]; eauto using string_ltb_trans.
Qed.

Lemma string_le_total : Total string_le.
Proof. intros a b. apply String.leb_total. Qed.

(** ** Loading and querying the planners *)

Section Registry.
Context {D : Type} {rt : RosTime D}.
Context {KinematicState RobotState RobotTrajectory : Type}.
Context {RequestBody SceneMsg World : Type}.

Local Abbreviation Planner :=
  (@Planner D rt KinematicState RobotState RobotTrajectory RequestBody World).
Local Abbreviation MotionPlanRequest := (@MotionPlanRequest D rt RequestBody).

Lemma map_assign_elem {V : Type} (k : string) (v : V) (m : list (string * V))
    (x : string * V) :
  x ∈ map_assign k v m → x = (k, v) ∨ x ∈ m.
Proof.
  induction m as [|[k' v'] m IH]; cbn [map_assign].
  - intros ->%list_elem_of_singleton. by left.
  - destruct (String.ltb k k'); [|destruct (bool_decide (k = k'))].
    + intros [->|?]%elem_of_cons; [by left|by right].
    + intros [->|?]%elem_of_cons; [by left|]. right. by right.
    + intros [->|?]%elem_of_cons; [right; by left|].
      destruct IH as [?|?]; [done|by left|]. right. by right.
Qed.

Lemma map_assign_keys {V : Type} (k : string) (v : V) (m : list (string * V))
    (k0 : string) :
  k0 ∈ (map_assign k v m).*1 ↔ k0 = k ∨ k0 ∈ m.*1.
Proof.
  induction m as [|[k' v'] m IH]; cbn [map_assign].
  - cbn. rewrite list_elem_of_singleton, elem_of_nil. tauto.
  - destruct (String.ltb k k'); [|destruct (decide (k = k')) as [<-|Hne]].
    + rewrite fmap_cons, elem_of_cons. done.
    + rewrite bool_decide_eq_true_2 by done. rewrite !fmap_cons, !elem_of_cons. cbn. tauto.
    + rewrite bool_decide_eq_false_2 by done. rewrite !fmap_cons, !elem_of_cons, IH. cbn.
      tauto.
Qed.

Lemma map_assign_sorted {V : Type} (k : string) (v : V) (m : list (string * V)) :
  StronglySorted (λ a b, String.ltb a b = true) m.*1 →
  StronglySorted (λ a b, String.ltb a b = true) (map_assign k v m).*1.
Proof.
  induction m as [|[k' v'] m IH]; cbn [map_assign].
  - intros _. cbn. by repeat constructor.
  - rewrite fmap_cons. cbn [fst]. intros Hs.
    pose proof (StronglySorted_inv Hs) as [Hm Hk'].
    destruct (String.ltb k k') eqn:Hlt; [|destruct (decide (k = k')) as [<-|Hne]].
    + rewrite !fmap_cons. cbn [fst]. constructor; [done|].
      constructor; [done|]. eapply Forall_impl; [exact Hk'|].
      intros x Hx. by apply (string_ltb_trans k k' x).
    + rewrite bool_decide_eq_true_2 by done. rewrite fmap_cons. by constructor.
    + rewrite bool_decide_eq_false_2 by done. rewrite fmap_cons. cbn [fst].
      constructor; [by apply IH|].
      apply Forall_forall. intros x [->|Hx]%map_assign_keys.
      * by apply string_ltb_trichotomy.
      * by apply (proj1 (Forall_forall _ _) Hk').
Qed.

(** X9. The planners the constructor loads: [planner_interfaces_]
    holds them in strictly increasing order of their names, one entry for
    each declared class that could be instantiated, with the instance of
    that class; the services are advertised exactly when one class could
    be. *)
Theorem X9_loaded_planners (createInstance : string → option Planner)
    (classes : list string) :
  let planner_interfaces_ := load_planners createInstance classes in
  StronglySorted (λ a b, String.ltb a b = true) planner_interfaces_.*1
  ∧ (∀ name, name ∈ planner_interfaces_.*1 ↔
             name ∈ classes ∧ is_Some (createInstance name))
  ∧ (∀ name p, (name, p) ∈ planner_interfaces_ → createInstance name = Some p)
  ∧ (advertises planner_interfaces_ = true ↔
     ∃ name, name ∈ classes ∧ is_Some (createInstance name)).
Proof.
  intros reg. subst reg. unfold load_planners.
  assert (Hgen : ∀ m : list (string * Planner),
    StronglySorted (λ a b, String.ltb a b = true) m.*1 →
    (∀ name p, (name, p) ∈ m → createInstance name = Some p) →
    let m' := fold_left
      (λ planner_interfaces_ class,
         match createInstance class with
         | Some p => map_assign class p planner_interfaces_
         | None => planner_interfaces_
         end) classes m in
    StronglySorted (λ a b, String.ltb a b = true) m'.*1
    ∧ (∀ name, name ∈ m'.*1 ↔
               name ∈ m.*1 ∨ (name ∈ classes ∧ is_Some (createInstance name)))
    ∧ (∀ name p, (name, p) ∈ m' → createInstance name = Some p)).
  { induction classes as [|c classes IH]; intros m Hs Hc.
    - cbn. split; [done|]. split; [|done]. intros name. rewrite elem_of_nil. tauto.
    - cbn [fold_left]. destruct (createInstance c) as [p|] eqn:Hcreate.
      + destruct (IH (map_assign c p m)) as (Hs' & Hk' & Hc').
        * by apply map_assign_sorted.
        * intros name q [[= -> ->]|Hin]%map_assign_elem; [done|by apply Hc].
        * split; [done|]. split; [|done]. intros name.
          rewrite Hk', map_assign_keys, elem_of_cons. split.
          -- intros [[->|?]|[? ?]]; [right; split; [by left|by eexists]|by left|].
             right. split; [by right|done].
          -- intros [?|[[->|?] ?]]; [left; by right|left; by left|by right].
      + destruct (IH m Hs Hc) as (Hs' & Hk' & Hc').
        split; [done|]. split; [|done]. intros name.
        rewrite Hk', elem_of_cons. split.
        * intros [?|[? ?]]; [by left|]. right. split; [by right|done].
        * intros [?|[[->|?] Hsome]]; [by left| |by right].
          rewrite Hcreate in Hsome. by destruct Hsome. }
  specialize (Hgen []). cbv zeta in Hgen.
  remember (fold_left _ classes []) as reg eqn:E in *. clear E.
  destruct Hgen as (Hs & Hk & Hc).
  { cbn. constructor. }
  { intros name p Hin. by apply elem_of_nil in Hin. }
  assert (Hk' : ∀ name, name ∈ reg.*1 ↔ name ∈ classes ∧ is_Some (createInstance name)).
  { intros name. rewrite Hk. cbn. rewrite elem_of_nil. tauto. }
  split; [done|]. split; [done|]. split; [done|].
  unfold advertises. rewrite bool_decide_eq_true. split.
  - intros Hne. destruct reg as [|[name p] m]; [done|].
    exists name. apply Hk'. rewrite fmap_cons. by left.
  - intros (name & Hname%Hk') ->. by apply elem_of_nil in Hname.
Qed.

Lemma queryInterfaces_fold (registry : list (string * Planner))
    (res : list PlannerInterfaceDescription) :
  queryInterfaces registry res =
  (true,
   res ++ ((λ '(name, p), Build_PlannerInterfaceDescription name (getPlanningAlgorithms p))
             <$> registry)).
Proof.
  unfold queryInterfaces. f_equal. revert res.
  induction registry as [|[name p] registry IH]; intros res.
  - cbn. by rewrite (right_id_L [] (++)).
  - cbn [fold_left]. rewrite IH, fmap_cons. by rewrite <- (assoc_L (++)).
Qed.

Lemma find_requested_answer (registry : list (string * Planner)) (name : string)
    (p : Planner) (start : nat) :
  NoDup registry.*1 → (name, p) ∈ registry →
  ∃ i, find_requested name start
         ((λ '(name, p), Build_PlannerInterfaceDescription name (getPlanningAlgorithms p))
            <$> registry)
       = Some (i, Build_PlannerInterfaceDescription name (getPlanningAlgorithms p)).
Proof.
  revert start. induction registry as [|[name' p'] registry IH]; intros start Hnd Hin.
  - by apply elem_of_nil in Hin.
  - rewrite fmap_cons in Hnd. apply NoDup_cons in Hnd as [Hnew Hnd].
    rewrite fmap_cons. cbn [find_requested pid_name].
    apply elem_of_cons in Hin as [[= <- <-]|Hin].
    + rewrite bool_decide_eq_true_2 by done. by eexists.
    + rewrite bool_decide_eq_false_2; [by apply IH|].
      intros ->. apply Hnew. apply list_elem_of_fmap. by exists (name, p).
Qed.

Lemma keep_known_known (group : string) (known requested : list string) :
  requested ⊆ known → keep_known group known requested = requested.
Proof.
  induction requested as [|id requested IH]; intros Hsub; [done|].
  cbn [keep_known]. rewrite is_known_spec_matches.
  rewrite bool_decide_eq_true_2.
  - rewrite IH; [done|]. intros x Hx. apply Hsub. by right.
  - apply Exists_exists. exists id. split; [|by left]. apply Hsub. by left.
Qed.

Lemma omap_ext_elem {A B : Type} (f g : A → option B) (l : list A) :
  (∀ x, x ∈ l → f x = g x) → omap f l = omap g l.
Proof.
  induction l as [|x l IH]; intros H; [done|].
  cbn. rewrite (H x) by (by left). rewrite IH; [done|].
  intros y Hy. apply H. by right.
Qed.

(** X10. [queryInterfaces] answers with the registered planners and
    their algorithms: a request restricted to the whole answer tests the
    same planners with the same algorithms and repetitions as a request
    without restriction. *)
Theorem X10_query_answer_restricts_nothing (registry : list (string * Planner))
    (mp_req : MotionPlanRequest) (default : nat) (filename : string) (scene_msg : SceneMsg) :
  NoDup registry.*1 →
  (queryInterfaces registry []).1 = true
  ∧ select_planners registry
      (Build_Request mp_req (queryInterfaces registry []).2 default [] filename scene_msg)
    = select_planners registry (Build_Request mp_req [] default [] filename scene_msg).
Proof.
  intros Hnd. rewrite queryInterfaces_fold. split; [done|]. cbn [snd app].
  unfold select_planners. apply omap_ext_elem. intros [name p] Hin.
  unfold select_planner. cbv zeta.
  cbn [req_planner_interfaces req_motion_plan_request req_default_average_count
       req_average_count find_requested].
  destruct (find_requested_answer registry name p 0 Hnd Hin) as [i ->].
  rewrite !(bool_decide_eq_false_2 (Some _ = None)) by done.
  rewrite (bool_decide_eq_false_2 (@nil PlannerInterfaceDescription ≠ [])) by (by intros ?).
  rewrite andb_false_r. cbn [andb pid_planner_ids].
  destruct (canServiceRequest p mp_req); [|done].
  destruct (getPlanningAlgorithms p) as [|id ids] eqn:Hk; [done|].
  rewrite lookup_nil. by rewrite keep_known_known.
Qed.

End Registry.

(** ** More on the service call *)

Section MoreService.
Context {D : Type} {dops : DoubleOps D} {rt : RosTime D}.
Context {KinematicState RobotState RobotTrajectory : Type}.
Context {RequestBody SceneMsg World : Type}.

Local Abbreviation Planner :=
  (@Planner D rt KinematicState RobotState RobotTrajectory RequestBody World).
Local Abbreviation Candidate :=
  (@Candidate D rt KinematicState RobotState RobotTrajectory RequestBody World).
Local Abbreviation Environment :=
  (@Environment D rt KinematicState RobotState RobotTrajectory RequestBody SceneMsg World).
Local Abbreviation Request := (@Request D rt RequestBody SceneMsg).
Local Abbreviation Scene := (@PlanningScene D KinematicState RobotState RobotTrajectory).
Local Abbreviation Plan := (@MotionPlanDetailedResponse D rt RobotState RobotTrajectory).

Lemma select_planners_names (registry : list (string * Planner)) (req : Request) :
  cand_name <$> select_planners registry req `sublist_of` registry.*1.
Proof.
  unfold select_planners. induction registry as [|[name p] registry IH]; [done|].
  cbn [omap list_omap]. destruct (select_planner req name p) as [c|] eqn:E.
  - apply select_planner_same in E as [<- _]. rewrite !fmap_cons. by apply sublist_skip.
  - rewrite fmap_cons. by apply sublist_cons.
Qed.

Lemma response_names (env : Environment) (registry : list (string * Planner))
    (scene : Scene) (files : gmap string (list string)) (w : World) (mp_res0 : Plan)
    (req : Request) res :
  res_planner_interfaces (out_res (computeBenchmark env registry scene files w mp_res0 req res))
  = (λ c, Build_PlannerInterfaceDescription (cand_name c) []) <$> select_planners registry req.
Proof.
  destruct (decide (select_planners registry req = [])) as [Hc|Hc].
  - unfold computeBenchmark. by rewrite Hc.
  - by rewrite computeBenchmark_run.
Qed.

(** X11. The response lists the tested planners and nothing else,
    whatever it held before: their names in the order of the registered
    planners, each without algorithm ids. *)
Theorem X11_response_lists_tested_planners (env : Environment)
    (registry : list (string * Planner)) (scene : Scene)
    (files : gmap string (list string)) (w : World) (mp_res0 : Plan) (req : Request) res :
  let listed :=
    res_planner_interfaces
      (out_res (computeBenchmark env registry scene files w mp_res0 req res)) in
  pid_name <$> listed `sublist_of` registry.*1
  ∧ Forall (λ d, pid_planner_ids d = []) listed
  ∧ ∀ name, name ∈ pid_name <$> listed ↔
            ∃ p, (name, p) ∈ registry ∧ is_Some (select_planner req name p).
Proof.
  intros listed. subst listed. rewrite response_names, <- list_fmap_compose.
  split; [apply select_planners_names|]. split.
  - apply Forall_fmap, Forall_true. done.
  - intros name. rewrite list_elem_of_fmap. unfold select_planners. split.
    + intros (c & Hname & ([name' p] & Hin & Hsel)%list_elem_of_omap).
      cbn in Hname. apply select_planner_same in Hsel as Hsame.
      destruct Hsame as [Hn _]. rewrite Hn in Hname. subst name'.
      exists p. split; [done|by eexists].
    + intros (p & Hin & [c Hsel]). exists c. split.
      * cbn. by apply select_planner_same in Hsel as [-> _].
      * apply list_elem_of_omap. by exists (name, p).
Qed.

(** *** Responses *)

Section Trials.
Variable env : Environment.
Variable scene : Scene.

Lemma run_planners_firsts_length (cands : list Candidate) mp_req (w : World) (mp_res : Plan) :
  length (run_planners env scene cands mp_req w mp_res).1.2 = length cands.
Proof.
  revert mp_req w mp_res. induction cands as [|c cands IH]; intros mp_req w mp_res; [done|].
  cbn [run_planners].
  destruct (run_algorithms env scene _ _ _ _ _) as [[data mp_req1] [[w1 mp_res1] first]].
  specialize (IH mp_req1 w1 mp_res1).
  destruct (run_planners env scene cands mp_req1 w1 mp_res1) as [[data' firsts] fin].
  cbn [fst snd length] in *. by rewrite IH.
Qed.

(** What a trial does to the response kept for its planner, and the
    flag it stores. *)
Lemma run_trial_first (pl : Planner) mp_req (w : World) (mp_res : Plan)
    (first : option Plan) :
  let r := run_trial env scene pl mp_req (w, mp_res, first) in
  let solved := (solve pl w scene mp_req mp_res).1.1 in
  r.1 !! "solved BOOLEAN" = Some (bool_lexical_cast solved)
  ∧ (r.2.2 = None ↔ first = None ∧ solved = false).
Proof.
  unfold run_trial. destruct (solve pl w scene mp_req mp_res) as [[solved mp_res'] w'].
  cbn [fst snd]. split.
  - apply (collectMetrics_trial_keys scene).
  - destruct first, solved; split; (done || by intros [? ?]).
Qed.

Lemma run_trial_keys (pl : Planner) mp_req (st : TrialState) :
  is_Some ((run_trial env scene pl mp_req st).1 !! "solved BOOLEAN")
  ∧ is_Some ((run_trial env scene pl mp_req st).1 !! "total_time REAL").
Proof.
  destruct st as [[w mp_res] first]. unfold run_trial.
  destruct (solve pl w scene mp_req mp_res) as [[solved mp_res'] w']. cbn [fst].
  destruct (collectMetrics_trial_keys scene ∅ mp_res' solved
              (wall_elapsed (env_now env w') (env_now env w))) as [-> ->].
  by split.
Qed.

Lemma run_repetitions_first (pl : Planner) mp_req (n : nat) (w : World) (mp_res : Plan)
    (first : option Plan) :
  let r := run_repetitions env scene pl mp_req n (w, mp_res, first) in
  r.2.2 = None ↔
  first = None ∧ Forall (λ rundata, rundata !! "solved BOOLEAN" = Some "0") r.1.
Proof.
  revert w mp_res first. induction n as [|n IH]; intros w mp_res first.
  - cbn. split; [by intros ->|by intros [-> _]].
  - cbn [run_repetitions].
    pose proof (run_trial_first pl mp_req w mp_res first) as Ht. cbv zeta in Ht.
    destruct (run_trial env scene pl mp_req (w, mp_res, first)) as [rundata [[w1 mp_res1] first1]].
    specialize (IH w1 mp_res1 first1). cbv zeta in IH.
    destruct (run_repetitions env scene pl mp_req n (w1, mp_res1, first1)) as [runs st2].
    cbn [fst snd] in *. destruct Ht as [Hkey Hfirst].
    rewrite IH, Hfirst, Forall_cons, Hkey.
    destruct (solve pl w scene mp_req mp_res).1.1; cbn; split.
    + by intros [[_ [=]] _].
    + by intros [_ [[=] _]].
    + by intros [[-> _] ?].
    + by intros [-> [_ ?]].
Qed.

Lemma run_algorithms_first (pl : Planner) mp_req (n : nat) (ids : list string) (w : World)
    (mp_res : Plan) (first : option Plan) :
  let r := run_algorithms env scene pl mp_req n ids (w, mp_res, first) in
  r.2.2 = None ↔
  first = None
  ∧ Forall (Forall (λ rundata, rundata !! "solved BOOLEAN" = Some "0")) r.1.1.
Proof.
  revert mp_req w mp_res first.
  induction ids as [|id ids IH]; intros mp_req w mp_res first.
  - cbn. split; [by intros ->|by intros [-> _]].
  - cbn [run_algorithms].
    pose proof (run_repetitions_first pl (set_planner_id mp_req id) n w mp_res first) as Hr.
    cbv zeta in Hr.
    destruct (run_repetitions env scene pl (set_planner_id mp_req id) n (w, mp_res, first))
      as [runs [[w1 mp_res1] first1]].
    specialize (IH (set_planner_id mp_req id) w1 mp_res1 first1). cbv zeta in IH.
    destruct (run_algorithms env scene pl (set_planner_id mp_req id) n ids
                (w1, mp_res1, first1)) as [[data mp_req2] st2].
    cbn [fst snd] in *. rewrite IH, Hr, Forall_cons. tauto.
Qed.

(** X12. No response is kept for a planner exactly when none of its
    trials, over all of its algorithms and repetitions, was solved. *)
Theorem X12_response_kept_iff_solved (pl : Planner) mp_req (n : nat) (ids : list string)
    (w : World) (mp_res : Plan) :
  let r := run_algorithms env scene pl mp_req n ids (w, mp_res, None) in
  r.2.2 = None ↔
  Forall (Forall (λ rundata, rundata !! "solved BOOLEAN" = Some "0")) r.1.1.
Proof.
  intros r. subst r. rewrite run_algorithms_first. tauto.
Qed.

Lemma run_repetitions_keys (pl : Planner) mp_req (n : nat) (st : TrialState) :
  Forall (λ rundata, is_Some (rundata !! "solved BOOLEAN")
                     ∧ is_Some (rundata !! "total_time REAL"))
    (run_repetitions env scene pl mp_req n st).1.
Proof.
  revert st. induction n as [|n IH]; intros st; [by constructor|].
  cbn [run_repetitions].
  pose proof (run_trial_keys pl mp_req st) as Hk.
  destruct (run_trial env scene pl mp_req st) as [rundata st1].
  specialize (IH st1).
  destruct (run_repetitions env scene pl mp_req n st1) as [runs st2].
  by constructor.
Qed.

Lemma run_algorithms_keys (pl : Planner) mp_req (n : nat) (ids : list string)
    (st : TrialState) :
  Forall (Forall (λ rundata, is_Some (rundata !! "solved BOOLEAN")
                             ∧ is_Some (rundata !! "total_time REAL")))
    (run_algorithms env scene pl mp_req n ids st).1.1.
Proof.
  revert mp_req st. induction ids as [|id ids IH]; intros mp_req st; [by constructor|].
  cbn [run_algorithms].
  pose proof (run_repetitions_keys pl (set_planner_id mp_req id) n st) as Hk.
  destruct (run_repetitions env scene pl (set_planner_id mp_req id) n st) as [runs st1].
  specialize (IH (set_planner_id mp_req id) st1).
  destruct (run_algorithms env scene pl (set_planner_id mp_req id) n ids st1)
    as [[data mp_req2] st2].
  by constructor.
Qed.

Lemma run_planners_keys (cands : list Candidate) mp_req (w : World) (mp_res : Plan) :
  Forall (Forall (λ rundata, is_Some (rundata !! "solved BOOLEAN")
                             ∧ is_Some (rundata !! "total_time REAL")))
    (run_planners env scene cands mp_req w mp_res).1.1.
Proof.
  revert mp_req w mp_res. induction cands as [|c cands IH]; intros mp_req w mp_res;
    [by constructor|].
  cbn [run_planners].
  pose proof (run_algorithms_keys (cand_planner c) mp_req (cand_average_count c)
                (cand_planner_ids c) (w, mp_res, None)) as Hk.
  destruct (run_algorithms env scene _ _ _ _ _) as [[data mp_req1] [[w1 mp_res1] first]].
  specialize (IH mp_req1 w1 mp_res1).
  destruct (run_planners env scene cands mp_req1 w1 mp_res1) as [[data' firsts] fin].
  cbn [fst snd] in *. by apply Forall_app.
Qed.

Lemma count_totals_runs (cands : list Candidate) (np nr : nat) :
  (fold_left
     (λ '(total_n_planners, total_n_runs) (c : Candidate),
        (total_n_planners + length (cand_planner_ids c),
         total_n_runs + length (cand_planner_ids c) * cand_average_count c))
     cands (np, nr)).2
  = nr + sum_list (group_repetitions cands).
Proof.
  revert np nr. induction cands as [|c cands IH]; intros np nr.
  - simpl. lia.
  - cbn [fold_left]. rewrite IH. unfold group_repetitions.
    cbn [mbind list_bind]. rewrite sum_list_with_app.
    change (sum_list_with id ?l) with (sum_list l). rewrite sum_list_replicate. lia.
Qed.

(** X13. [total_n_runs], the length of the progress display, is the
    number of trials that are run: the records of all groups together. *)
Theorem X13_total_n_runs (cands : list Candidate) mp_req (w : World) (mp_res : Plan) :
  length (mjoin (run_planners env scene cands mp_req w mp_res).1.1)
  = (count_totals cands).2.
Proof.
  rewrite length_join, run_planners_lengths.
  unfold count_totals. by rewrite count_totals_runs.
Qed.

End Trials.

Lemma record_first_solutions_length (n : nat) (old firsts : list (option Plan)) :
  length firsts = n → length (record_first_solutions n old firsts) = n.
Proof.
  intros Hn. unfold record_first_solutions.
  rewrite length_zip_with, length_take, length_app, length_replicate. lia.
Qed.

(** X14. A call that succeeds answers with one response entry per
    tested planner; a call that fails leaves the responses, the file name
    and the error code as it got them. *)
Theorem X14_one_response_per_planner (env : Environment)
    (registry : list (string * Planner)) (scene : Scene)
    (files : gmap string (list string)) (w : World) (mp_res0 : Plan) (req : Request) res :
  let o := computeBenchmark env registry scene files w mp_res0 req res in
  if out_return o then
    length (res_responses (out_res o)) = length (res_planner_interfaces (out_res o))
  else
    res_responses (out_res o) = res_responses res
    ∧ res_filename (out_res o) = res_filename res
    ∧ res_error_code (out_res o) = res_error_code res.
Proof.
  intros o. subst o.
  destruct (decide (select_planners registry req = [])) as [Hc|Hc].
  - unfold computeBenchmark. by rewrite Hc.
  - rewrite computeBenchmark_run by done.
    cbn [out_return out_res res_responses res_planner_interfaces].
    rewrite length_fmap. apply record_first_solutions_length, run_planners_firsts_length.
Qed.


(** *** The columns of a group *)

Lemma properties_elem (runs : list (gmap string string)) (k : string) :
  k ∈ properties runs ↔ ∃ rundata, rundata ∈ runs ∧ is_Some (rundata !! k).
Proof.
  unfold properties. rewrite (merge_sort_Permutation _ _), elem_of_elements, propSeen_union.
  rewrite elem_of_union_list. split.
  - intros (X & (rundata & -> & Hin)%list_elem_of_fmap & Hk%elem_of_dom). eauto.
  - intros (rundata & Hin & Hk). exists (dom rundata).
    split; [apply list_elem_of_fmap; eauto|by apply elem_of_dom].
Qed.

(** X16. The columns of a group are the property names that occur in
    at least one of its runs, each once, in the order of the strings. *)
Theorem X16_columns_of_a_group (runs : list (gmap string string)) :
  StronglySorted string_le (properties runs)
  ∧ NoDup (properties runs)
  ∧ ∀ k, k ∈ properties runs ↔ ∃ rundata, rundata ∈ runs ∧ is_Some (rundata !! k).
Proof.
  split; [|split].
  - unfold properties.
    apply (@StronglySorted_merge_sort _ string_le _ string_le_trans string_le_total).
  - unfold properties. rewrite (merge_sort_Permutation _ _). apply NoDup_elements.
  - apply properties_elem.
Qed.

Lemma select_planner_count_pos (req : Request) (name : string) (p : Planner)
    (c : Candidate) :
  select_planner req name p = Some c → 1 ≤ cand_average_count c.
Proof.
  unfold select_planner. cbv zeta.
  destruct (_ && _); [done|]. destruct (canServiceRequest p _); [|done].
  destruct (find_requested _ _ _) as [[i d]|];
    [destruct (pid_planner_ids d); [|destruct (req_average_count req !! i)]|];
    intros [= <-]; cbn; lia.
Qed.

Lemma group_repetitions_pos (registry : list (string * Planner)) (req : Request) :
  Forall (λ n, 1 ≤ n) (group_repetitions (select_planners registry req)).
Proof.
  unfold group_repetitions. apply Forall_forall. intros n Hn.
  apply list_elem_of_bind in Hn as (c & Hn & Hc).
  apply elem_of_replicate in Hn as [-> _].
  apply list_elem_of_omap in Hc as ([name p] & _ & Hsel).
  by apply select_planner_count_pos in Hsel.
Qed.

(** X17. Every group of a report has at least one run, and the columns
    [solved BOOLEAN] and [total_time REAL] are among its columns. *)
Theorem X17_groups_not_empty (env : Environment) (registry : list (string * Planner))
    (scene : Scene) (w : World) (mp_res : Plan) (req : Request) :
  Forall
    (λ runs, runs ≠ []
             ∧ "solved BOOLEAN" ∈ properties runs
             ∧ "total_time REAL" ∈ properties runs)
    (run_planners env scene (select_planners registry req) (req_motion_plan_request req)
       w mp_res).1.1.
Proof.
  pose proof (run_planners_lengths env scene (select_planners registry req)
                (req_motion_plan_request req) w mp_res) as Hlen.
  pose proof (run_planners_keys env scene (select_planners registry req)
                (req_motion_plan_request req) w mp_res) as Hkeys.
  pose proof (group_repetitions_pos registry req) as Hpos.
  revert Hlen Hkeys Hpos.
  generalize (group_repetitions (select_planners registry req)) as reps.
  generalize (run_planners env scene (select_planners registry req)
                (req_motion_plan_request req) w mp_res).1.1 as data.
  induction data as [|runs data IH]; intros [|n reps] Hlen Hkeys Hpos; try done.
  injection Hlen as Hn Hlen.
  apply Forall_cons in Hkeys as [Hruns Hkeys]. apply Forall_cons in Hpos as [Hn1 Hpos].
  constructor; [|by apply (IH reps)].
  destruct runs as [|rundata runs]; [cbn in Hn; lia|].
  apply Forall_cons in Hruns as [[Hs Ht] _].
  split; [done|]. split; apply properties_elem; exists rundata; (split; [by left|done]).
Qed.

End MoreService.

(** ** The host name *)

Lemma list_ascii_of_string_length (h : string) :
  length (String.list_ascii_of_string h) = String.length h.
Proof. induction h as [|c h IH]; simpl; [done|]. by rewrite IH. Qed.

Lemma c_string_length (buffer : list Ascii.ascii) (i : nat) :
  buffer !! i = Some Ascii.zero → String.length (c_string buffer) ≤ i.
Proof.
  revert i. induction buffer as [|c buffer IH]; intros i; [done|].
  cbn [c_string]. destruct (decide (c = Ascii.zero)) as [->|Hc].
  - rewrite bool_decide_eq_true_2 by done. simpl. lia.
  - rewrite bool_decide_eq_false_2 by done. destruct i as [|i]; simpl.
    + by intros [= ->].
    + intros Hi. apply IH in Hi. lia.
Qed.

Lemma c_string_no_zero (buffer : list Ascii.ascii) :
  Ascii.zero ∉ String.list_ascii_of_string (c_string buffer).
Proof.
  induction buffer as [|c buffer IH]; cbn [c_string].
  - simpl. by intros H%elem_of_nil.
  - destruct (decide (c = Ascii.zero)) as [->|Hc].
    + rewrite bool_decide_eq_true_2 by done. simpl. by intros H%elem_of_nil.
    + rewrite bool_decide_eq_false_2 by done. simpl.
      intros [?|?]%elem_of_cons; [congruence|done].
Qed.

Lemma c_string_terminated (h : string) (rest : list Ascii.ascii) :
  Ascii.zero ∉ String.list_ascii_of_string h →
  c_string (String.list_ascii_of_string h ++ Ascii.zero :: rest) = h.
Proof.
  induction h as [|c h IH]; cbn [String.list_ascii_of_string app c_string].
  - intros _. by rewrite bool_decide_eq_true_2.
  - intros [Hc Hh]%not_elem_of_cons.
    rewrite bool_decide_eq_false_2 by congruence. by rewrite IH.
Qed.

(** X18. The host name has at most [BUF_SIZE - 1] characters and no
    NUL among them, whatever [gethostname] left in the buffer, and it is
    empty when [gethostname] reported an error. *)
Theorem X18_getHostname_bounded (err : Z) (buffer : list Ascii.ascii) :
  length buffer = BUF_SIZE →
  (String.length (getHostname err buffer) ≤ BUF_SIZE - 1)
  ∧ (Ascii.zero ∉ String.list_ascii_of_string (getHostname err buffer))
  ∧ (getHostname err buffer = "" ∨ err = 0%Z).
Proof.
  intros Hlen. unfold getHostname. destruct (decide (err = 0%Z)) as [->|Herr].
  - rewrite bool_decide_eq_false_2 by (by intros H; apply H).
    split; [|split; [apply c_string_no_zero|by right]].
    apply c_string_length. apply list_lookup_insert_eq. rewrite Hlen. unfold BUF_SIZE. lia.
  - rewrite bool_decide_eq_true_2 by done. split; [simpl; lia|].
    split; [by intros H%elem_of_nil|by left].
Qed.

(** X19. A host name that fits the buffer with its terminating NUL comes
    back as it is, whatever follows the NUL in the buffer. *)
Theorem X19_getHostname_round_trip (h : string) (rest : list Ascii.ascii) :
  Ascii.zero ∉ String.list_ascii_of_string h →
  String.length h < BUF_SIZE →
  getHostname 0 (String.list_ascii_of_string h ++ Ascii.zero :: rest) = h.
Proof.
  intros Hh Hlen. unfold getHostname. rewrite bool_decide_eq_false_2 by (by intros H; apply H).
  rewrite insert_app_r_alt by (rewrite list_ascii_of_string_length; unfold BUF_SIZE in *; lia).
  destruct (BUF_SIZE - 1 - length (String.list_ascii_of_string h)) as [|i];
    by apply c_string_terminated.
Qed.

(** ** The concrete service *)

#[local] Existing Instance Fixture.double_ops.
#[local] Existing Instance Fixture.ros_time.

(** In binary64 the clearance of a segment without waypoints is NaN. *)
Example clearance_of_no_waypoints_is_nan :
  PrimFloat.is_nan (path_clearance Fixture.scene []) = true.
Proof. reflexivity. Qed.

(** The scenario of the specification: A_x with two solved runs, A_y with
    two unsolved runs, B_z with one solved run. *)
Example scenario_report :
  out_files (Fixture.run true Fixture.request) !! "out.log" =
  Some
    [ "Experiment NO_NAME"; "Running on host"; "Starting at 0"; "<<<|"; "ROS"; "request";
      "|>>>"; "5p0 seconds per run"; "5p0 seconds spent to collect the data"; "3 planners";
      "A_x"; "0 common properties"; "8 properties for each run";
      "path_plan_clearance REAL"; "path_plan_correct BOOLEAN"; "path_plan_length REAL";
      "path_plan_smoothness REAL"; "path_plan_time REAL"; "process_time REAL";
      "solved BOOLEAN"; "total_time REAL"; "2 runs";
      "1p0; 1; 1p0; 0; 1p-1; 1p-1; 1; 1p0; ";
      "1p0; 1; 1p0; 0; 1p-1; 1p-1; 1; 1p0; ";
      ".";
      "A_y"; "0 common properties"; "2 properties for each run";
      "solved BOOLEAN"; "total_time REAL"; "2 runs";
      "0; 1p0; "; "0; 1p0; "; ".";
      "B_z"; "0 common properties"; "8 properties for each run";
      "path_plan_clearance REAL"; "path_plan_correct BOOLEAN"; "path_plan_length REAL";
      "path_plan_smoothness REAL"; "path_plan_time REAL"; "process_time REAL";
      "solved BOOLEAN"; "total_time REAL"; "1 runs";
      "1p0; 1; 1p0; 0; 1p-1; 1p-1; 1; 1p0; ";
      "." ].
Proof. vm_compute. reflexivity. Qed.

(** C1 as the specification words it fails: planner A fails algorithm
    y, and the record of that trial holds the wall time and the flag and
    nothing else; no metric is stored with the value zero. *)
Lemma C1_counterexample :
  let pl := Fixture.planner "A" ["x"; "y"] ["x"] in
  let mp_req := set_planner_id Fixture.problem "y" in
  let rundata :=
    (run_trial (Fixture.env true) Fixture.scene pl mp_req
       (0, Fixture.no_plan, None)).1 in
  (solve pl 0 Fixture.scene mp_req Fixture.no_plan).1.1 = false
  ∧ map_to_list rundata = [("solved BOOLEAN", "0"); ("total_time REAL", "1p0")]
  ∧ rundata !! "process_time REAL" = None.
Proof. vm_compute. done. Qed.

(** The scenario's matrix has five trials, and each of them calls
    [solve], the three that follow the first failed one too: the world
    counts five calls, and the records are those of A_x twice, A_y twice
    and B_z. *)
Example scenario_trials_all_run :
  let cands := select_planners Fixture.registry Fixture.request in
  let r := run_planners (Fixture.env true) Fixture.scene cands Fixture.problem 0
             Fixture.no_plan in
  (λ trial : Fixture.Interface * string, (getDescription trial.1, trial.2))
    <$> spec_trial_matrix cands
  = [("A", "x"); ("A", "x"); ("A", "y"); ("A", "y"); ("B", "z")]
  ∧ r.2.1 = 5
  ∧ out_world (Fixture.run true Fixture.request) = 5
  ∧ (λ rundata, rundata !! "solved BOOLEAN") <$> mjoin r.1.1
    = [Some "1"; Some "1"; Some "0"; Some "0"; Some "1"].
Proof. vm_compute. done. Qed.

(** C1 on the trial of planner A with algorithm y and on the scenario's
    matrix. *)
Lemma C1_witness :
  let pl := Fixture.planner "A" ["x"; "y"] ["x"] in
  let mp_req := set_planner_id Fixture.problem "y" in
  let cands := select_planners Fixture.registry Fixture.request in
  (run_trial (Fixture.env true) Fixture.scene pl mp_req
     (0, Fixture.no_plan, None)).1 =
    <["solved BOOLEAN" := "0"]>
      (<["total_time REAL" :=
           d_lexical_cast
             (wall_elapsed
                (env_now (Fixture.env true)
                   (solve pl 0 Fixture.scene mp_req Fixture.no_plan).2)
                (env_now (Fixture.env true) 0))]>
         ∅)
  ∧ length <$> (run_planners (Fixture.env true) Fixture.scene cands Fixture.problem 0
                  Fixture.no_plan).1.1
    = group_repetitions cands
  ∧ (mjoin (run_planners (Fixture.env true) Fixture.scene cands Fixture.problem 0
              Fixture.no_plan).1.1,
     (run_planners (Fixture.env true) Fixture.scene cands Fixture.problem 0
        Fixture.no_plan).2)
    = spec_run_all (Fixture.env true) Fixture.scene Fixture.problem
        (spec_trial_matrix cands) (0, Fixture.no_plan)
  ∧ length (spec_trial_matrix cands) = sum_list (group_repetitions cands).
Proof.
  exact (C1_failed_trial_recorded_unsolved
           (Fixture.env true) Fixture.scene (Fixture.planner "A" ["x"; "y"] ["x"])
           (set_planner_id Fixture.problem "y") 0 Fixture.no_plan None
           (select_planners Fixture.registry Fixture.request) Fixture.problem 0
           Fixture.no_plan eq_refl).
Defined.

(** C3 as the specification words it fails: the request names planner
    A without algorithm ids and gives the count 5 at A's index, and A is
    tested with the default count 1. *)
Lemma C3_counterexample :
  find_requested "A" 0 (req_planner_interfaces Fixture.request_all_of_A)
    = Some (0, Build_PlannerInterfaceDescription "A" [])
  ∧ req_average_count Fixture.request_all_of_A !! 0 = Some 5
  ∧ req_default_average_count Fixture.request_all_of_A = 1
  ∧ (λ c, (cand_name c, cand_average_count c))
      <$> select_planners Fixture.registry Fixture.request_all_of_A
    = [("A", 1)].
Proof. vm_compute. done. Qed.

(** C3 on planner A of the scenario, named with two ids and the count 2. *)
Lemma C3_witness :
  let pl := Fixture.planner "A" ["x"; "y"] ["x"] in
  let c := Build_Candidate "A" pl ["x"; "y"] 2 in
  select_planner Fixture.request "A" pl = Some c
  ∧ 1 ≤ cand_average_count c
  ∧ cand_average_count c = Nat.max 1 2.
Proof.
  split; [reflexivity|].
  exact (C3_repetition_count Fixture.request "A" (Fixture.planner "A" ["x"; "y"] ["x"])
           (Build_Candidate "A" (Fixture.planner "A" ["x"; "y"] ["x"]) ["x"; "y"] 2)
           eq_refl).
Defined.

(** C4 on the scenario: the file is the header and the three sections
    of A_x, A_y and B_z, with 2, 2 and 1 rows. *)
Lemma C4_witness :
  let o := Fixture.run true Fixture.request in
  let cands := select_planners Fixture.registry Fixture.request in
  let data :=
    (run_planners (Fixture.env true) Fixture.scene cands Fixture.problem 0
       Fixture.no_plan).1.1 in
  zip (group_labels cands) (group_repetitions cands) = [("A_x", 2); ("A_y", 2); ("B_z", 1)]
  ∧ ∃ header sections,
      out_files o !! res_filename (out_res o) = Some (header ++ mjoin sections)
      ∧ length header = 10
      ∧ length sections = length (group_labels cands)
      ∧ Forall3
          (λ (group : string * nat) runs section,
             let keys : gset string := ⋃ (dom <$> runs) in
             length runs = group.2
             ∧ length (properties runs) = size keys
             ∧ (∀ k, k ∈ properties runs ↔ k ∈ keys)
             ∧ section = spec_section group.1 group.2 (properties runs) runs)
          (zip (group_labels cands) (group_repetitions cands)) data sections.
Proof.
  split; [reflexivity|].
  refine (C4_group_rows_and_columns (Fixture.env true) Fixture.registry Fixture.scene ∅ 0
            Fixture.no_plan Fixture.request Fixture.response _ eq_refl).
  intros H%(f_equal length). vm_compute in H. discriminate H.
Defined.

(** C5 on a request for planner A that names x, an unknown name and
    arm[y]: x and arm[y] are kept, in that order. *)
Lemma C5_witness :
  let pl := Fixture.planner "A" ["x"; "y"] ["x"] in
  let c := Build_Candidate "A" pl ["x"; "arm[y]"] 1 in
  select_planner Fixture.request_one_unknown "A" pl = Some c
  ∧ cand_planner_ids c = filter (spec_matches "arm" ["x"; "y"]) ["x"; "nope"; "arm[y]"]
  ∧ out_return (Fixture.run true Fixture.request_one_unknown) = true.
Proof.
  split; [reflexivity|].
  refine (C5_resolved_algorithm_ids (Fixture.env true) Fixture.registry Fixture.scene ∅ 0
            Fixture.no_plan Fixture.request_one_unknown Fixture.response "A"
            (Fixture.planner "A" ["x"; "y"] ["x"])
            (Build_Candidate "A" (Fixture.planner "A" ["x"; "y"] ["x"]) ["x"; "arm[y]"] 1)
            _ eq_refl).
  apply list_elem_of_here.
Defined.

(** C6 as the specification words it fails: two planners are tested,
    A and B, and the line reads [3 planners]. *)
Lemma C6_counterexample :
  let o := Fixture.run true Fixture.request in
  let tested := res_planner_interfaces (out_res o) in
  let line := out_files o !! res_filename (out_res o) ≫= (.!! 9) in
  pid_name <$> tested = ["A"; "B"]
  ∧ line = Some "3 planners"
  ∧ line ≠ Some (pretty (length tested) +:+ " planners").
Proof. vm_compute. by repeat split. Qed.

(** C6 on the scenario: three groups, the line says so, and three
    sections follow. *)
Lemma C6_witness :
  let o := Fixture.run true Fixture.request in
  let cands := select_planners Fixture.registry Fixture.request in
  group_labels cands = ["A_x"; "A_y"; "B_z"]
  ∧ ∃ lines,
      out_files o !! res_filename (out_res o) = Some lines
      ∧ lines !! 9 = Some (pretty (length (group_labels cands)) +:+ " planners")
      ∧ ∃ header sections,
          lines = header ++ mjoin sections
          ∧ length header = 10
          ∧ header !! 9 = Some (pretty (length sections) +:+ " planners")
          ∧ length sections = sum_list ((length ∘ cand_planner_ids) <$> cands)
          ∧ Forall2
              (λ label section,
                 ∃ runs,
                   section = spec_section label (length runs) (properties runs) runs)
              (group_labels cands) sections.
Proof.
  split; [reflexivity|].
  refine (C6_planner_count_line (Fixture.env true) Fixture.registry Fixture.scene ∅ 0
            Fixture.no_plan Fixture.request Fixture.response _ eq_refl).
  intros H%(f_equal length). vm_compute in H. discriminate H.
Defined.

(** C9 as the specification words it fails: the file cannot be opened,
    nothing is written, and the call returns true with the code SUCCESS. *)
Lemma C9_counterexample :
  let o := Fixture.run false Fixture.request in
  env_ofstream_opens (Fixture.env false) (res_filename (out_res o)) = false
  ∧ out_files o !! res_filename (out_res o) = None
  ∧ out_return o = true
  ∧ res_error_code (out_res o) = SUCCESS.
Proof. vm_compute. done. Qed.

(** C9 on the scenario with a file that does not open. *)
Lemma C9_witness :
  let o := Fixture.run false Fixture.request in
  out_files o = ∅ ∧ out_return o = true ∧ res_error_code (out_res o) = SUCCESS.
Proof.
  refine (C9_write_failure_unnoticed (Fixture.env false) Fixture.registry Fixture.scene ∅ 0
            Fixture.no_plan Fixture.request Fixture.response _ eq_refl).
  intros H%(f_equal length). vm_compute in H. discriminate H.
Defined.

(** C10 on the two-waypoint path of the scenario. *)
Lemma C10_witness :
  let seg := Build_Segment [0%float; 1%float] "plan" 0.5%float in
  (collect_segment Fixture.scene tt (∅, 1%float) seg).1 !! "path_plan_clearance REAL"
    = Some (Fixture.show_float (path_clearance Fixture.scene [0%float; 1%float]))
  ∧ path_clearance Fixture.scene [0%float; 1%float]
    = (spec_clearance_sum Fixture.scene [0%float; 1%float] / 2)%float
  ∧ PrimFloat.eqb 2 0 = false.
Proof.
  exact (C10_clearance_unguarded_quotient (λ _, nan) Fixture.show_float Fixture.show_float
           Fixture.scene tt ∅ 1%float (Build_Segment [0%float; 1%float] "plan" 0.5%float)
           eq_refl).
Defined.

(** A request that names only a planner the registry does not hold: the
    call fails and writes nothing. *)
Example unknown_planner_fails :
  let o := Fixture.run true Fixture.request_unknown in
  out_return o = false ∧ out_files o = ∅ ∧ out_world o = 0.
Proof. vm_compute. done. Qed.

(** ** The further properties on the concrete service *)

(** X1 on the length and the time of the segment [plan]. *)
Lemma X1_witness :
  ("path_plan_length REAL" = "path_plan_time REAL"
   ↔ "plan" = "plan" ∧ "_length REAL" = "_time REAL")
  ∧ "path_plan_length REAL" ∉ ["total_time REAL"; "solved BOOLEAN"; "process_time REAL"].
Proof.
  apply (X1_property_names_distinct "plan" "plan" "_length REAL" "_time REAL");
    compute_done.
Defined.

(** X5 on a trajectory with two segments called [plan] and one called
    [other] after them: the record holds the metrics of the second. *)
Lemma X5_witness :
  let seg1 := Build_Segment [0%float; 1%float] "plan" 0.5%float in
  let seg2 := Build_Segment [0%float; 2%float] "plan" 0.25%float in
  let seg3 := Build_Segment [0%float; 4%float] "other" 0.125%float in
  let rundata := collectMetrics Fixture.scene ∅ (Build_MotionPlanDetailedResponse tt [seg1; seg2; seg3])
                   true 1%float in
  rundata !! "path_plan_correct BOOLEAN" = Some "1"
  ∧ rundata !! "path_plan_length REAL" = Some "1p1"
  ∧ rundata !! "path_plan_clearance REAL" = Some "1p0"
  ∧ rundata !! "path_plan_smoothness REAL" = Some "0"
  ∧ rundata !! "path_plan_time REAL" = Some "1p-2".
Proof.
  refine (X5_last_segment_of_a_description Fixture.scene ∅ tt
            [Build_Segment [0%float; 1%float] "plan" 0.5%float]
            [Build_Segment [0%float; 4%float] "other" 0.125%float]
            (Build_Segment [0%float; 2%float] "plan" 0.25%float) 1%float _).
  compute_done.
Defined.

(** X8 on planner A named twice: with the algorithms x and y, and after
    that with z or with nothing. *)
Lemma X8_witness :
  let pl := Fixture.planner "A" ["x"; "y"] ["x"] in
  let first := Build_PlannerInterfaceDescription "A" ["x"; "y"] in
  select_planner
    (Build_Request Fixture.problem [first; Build_PlannerInterfaceDescription "A" ["z"]]
       1 [2] "one.log" tt) "A" pl
  = select_planner
      (Build_Request Fixture.problem [first; Build_PlannerInterfaceDescription "A" []]
         1 [2] "two.log" tt) "A" pl.
Proof.
  exact (X8_first_entry_counts "A" (Fixture.planner "A" ["x"; "y"] ["x"]) Fixture.problem
           1 [2] "one.log" "two.log" tt tt []
           [Build_PlannerInterfaceDescription "A" ["z"]]
           [Build_PlannerInterfaceDescription "A" []]
           (Build_PlannerInterfaceDescription "A" ["x"; "y"]) eq_refl).
Defined.

(** X10 on the registry of the scenario. *)
Lemma X10_witness :
  (queryInterfaces Fixture.registry []).1 = true
  ∧ select_planners Fixture.registry
      (Build_Request Fixture.problem (queryInterfaces Fixture.registry []).2 1 [] "out.log" tt)
    = select_planners Fixture.registry (Build_Request Fixture.problem [] 1 [] "out.log" tt).
Proof.
  apply (X10_query_answer_restricts_nothing Fixture.registry Fixture.problem 1 "out.log" tt).
  compute_done.
Defined.

(** X18 on a buffer that [gethostname] filled without a NUL. *)
Lemma X18_witness :
  let buffer := replicate BUF_SIZE "a"%char in
  (String.length (getHostname 0 buffer) ≤ BUF_SIZE - 1)
  ∧ (Ascii.zero ∉ String.list_ascii_of_string (getHostname 0 buffer))
  ∧ (getHostname 0 buffer = "" ∨ 0%Z = 0%Z).
Proof. exact (X18_getHostname_bounded 0 (replicate BUF_SIZE "a"%char) eq_refl). Defined.

(** X19 on the name [host] in a buffer with other characters after its
    NUL. *)
Lemma X19_witness :
  getHostname 0 (String.list_ascii_of_string "host" ++ Ascii.zero :: replicate 1019 "x"%char)
  = "host".
Proof.
  apply (X19_getHostname_round_trip "host" (replicate 1019 "x"%char)).
  - compute_done.
  - unfold BUF_SIZE. simpl. lia.
Defined.

(** The planners of the scenario, loaded from the classes B, C and A
    when C cannot be instantiated. *)
Example scenario_load :
  (load_planners
     (λ class, if bool_decide (class = "A") then Some (Fixture.planner "A" ["x"; "y"] ["x"])
               else if bool_decide (class = "B") then Some (Fixture.planner "B" ["z"] ["z"])
               else None)
     ["B"; "C"; "A"]).*1 = ["A"; "B"].
Proof. reflexivity. Qed.
